(** * TypeBridge CLI: GraphQL schema to TypeScript declarations

    A shallow embedding of [src/index.ts].

    - JavaScript strings are modelled as [string].  GraphQL names are
      ASCII (a letter or an underscore, then letters, digits and
      underscores), so one character of the model is one code unit of the
      program.
    - The schema is the view [graphql-js] gives of it: named types of six
      kinds, fields in declaration order, type references printed by
      [toString].
    - The string methods and the two regular expressions the generator
      uses are written out as functions on [string].
    - The global [enumTypes] is passed explicitly, and [main] returns it
      with the list of the files it writes. *)

From Stdlib Require Import Strings.String Strings.Ascii Lists.List Bool.Bool
  Arith.PeanoNat micromega.Lia.
Import ListNotations.

Open Scope string_scope.
Open Scope bool_scope.

(** ** JavaScript string primitives *)

Module Js.

(** The characters that cannot be written inside a literal here. *)
Definition dquote : string := String "034"%char EmptyString.
Definition nl : string := String "010"%char EmptyString.

(** [s.startsWith(p)] *)
Fixpoint startsWith (s p : string) {struct p} : bool :=
  match p with
  | EmptyString => true
  | String a p' =>
      match s with
      | EmptyString => false
      | String b s' => Ascii.eqb a b && startsWith s' p'
      end
  end.

(** [s.includes(p)]: [p] occurs in [s] at some position. *)
Fixpoint includes (s p : string) : bool :=
  startsWith s p ||
  match s with
  | EmptyString => false
  | String _ s' => includes s' p
  end.

(** [s.slice(n)] for [0 <= n]. *)
Fixpoint slice (s : string) (n : nat) {struct n} : string :=
  match n, s with
  | O, _ => s
  | S _, EmptyString => EmptyString
  | S n', String _ s' => slice s' n'
  end.

(** [xs.includes(x)] on an array of strings. *)
Fixpoint arrayIncludes (xs : list string) (x : string) : bool :=
  match xs with
  | [] => false
  | y :: ys => String.eqb y x || arrayIncludes ys x
  end.

(** [xs.join(sep)] *)
Fixpoint join (sep : string) (xs : list string) : string :=
  match xs with
  | [] => EmptyString
  | [x] => x
  | x :: ys => x ++ sep ++ join sep ys
  end.

(** Truthiness of a string: any non-empty string. *)
Definition truthy (s : string) : bool :=
  match s with
  | EmptyString => false
  | String _ _ => true
  end.

(** [s.charAt(0)] *)
Definition charAt0 (s : string) : string :=
  match s with
  | EmptyString => EmptyString
  | String c _ => String c EmptyString
  end.

(** [s.toLowerCase()] on ASCII text. *)
Definition toLowerCaseChar (c : ascii) : ascii :=
  let n := nat_of_ascii c in
  if Nat.leb 65 n && Nat.leb n 90 then ascii_of_nat (n + 32) else c.

Fixpoint toLowerCase (s : string) : string :=
  match s with
  | EmptyString => EmptyString
  | String c s' => String (toLowerCaseChar c) (toLowerCase s')
  end.

(** [s.replace(/pat/g, rep)] for a pattern [pat] made of literal
    characters and a replacement without [$]: the matches are found from
    left to right, and the search resumes after each match.  [fuel]
    bounds the number of resumptions. *)
Fixpoint replaceLiteral (fuel : nat) (pat rep s : string) : string :=
  match fuel with
  | O => s
  | S fuel' =>
      match s with
      | EmptyString => EmptyString
      | String c s' =>
          if startsWith s pat
          then rep ++ replaceLiteral fuel' pat rep (slice s (String.length pat))
          else String c (replaceLiteral fuel' pat rep s')
      end
  end.

Definition replaceG (pat rep s : string) : string :=
  replaceLiteral (String.length s) pat rep s.

(** [s.replaceAll("!", "")] *)
Fixpoint removeBang (s : string) : string :=
  match s with
  | EmptyString => EmptyString
  | String c s' =>
      if Ascii.eqb c "!"%char then removeBang s' else String c (removeBang s')
  end.

(** The regular expression of lines 79 and 91: an escaped opening bracket,
    a capture group holding a greedy run of the dot, an escaped closing
    bracket, with flags g and m.  The dot matches any character but a line
    terminator, and the run is greedy: from an opening bracket the match
    extends to the last closing bracket of the same line. *)
Definition lineTerminator (c : ascii) : bool :=
  Ascii.eqb c "010"%char || Ascii.eqb c "013"%char.

(** [lastClose s]: with [s] the text after an opening bracket, the
    capture [$1] and the text after the match, if there is a match. *)
Fixpoint lastClose (s : string) : option (string * string) :=
  match s with
  | EmptyString => None
  | String c s' =>
      if lineTerminator c then None
      else
        match lastClose s' with
        | Some (cap, rest) => Some (String c cap, rest)
        | None =>
            if Ascii.eqb c "]"%char then Some (EmptyString, s') else None
        end
  end.

(** [s.replaceAll(re, "$1" + suffix)] for that regular expression [re]:
    matches are replaced from left to right, the search resuming after
    each match; text inside a capture is not searched again. *)
Fixpoint replaceBrackets (fuel : nat) (suffix s : string) : string :=
  match fuel with
  | O => s
  | S fuel' =>
      match s with
      | EmptyString => EmptyString
      | String c s' =>
          if Ascii.eqb c "["%char then
            match lastClose s' with
            | Some (cap, rest) =>
                cap ++ suffix ++ replaceBrackets fuel' suffix rest
            | None => String c (replaceBrackets fuel' suffix s')
            end
          else String c (replaceBrackets fuel' suffix s')
      end
  end.

Definition replaceAllBrackets (suffix s : string) : string :=
  replaceBrackets (String.length s) suffix s.

End Js.

(** ** The schema, as [graphql-js] presents it *)

(** A type reference: a named type, a list, or a non-null wrapper. *)
Inductive GraphQLType : Type :=
| Named (name : string)
| ListOf (ofType : GraphQLType)
| NonNull (ofType : GraphQLType).

(** [type.toString()], the printed form the generator works on. *)
Fixpoint toString (t : GraphQLType) : string :=
  match t with
  | Named name => name
  | ListOf ofType => "[" ++ toString ofType ++ "]"
  | NonNull ofType => toString ofType ++ "!"
  end.

Record GraphQLField : Type := mkField {
  fieldName : string;
  fieldType : GraphQLType
}.

Record GraphQLEnumValue : Type := mkEnumValue {
  valueName : string;
  valueValue : string
}.

(** [GraphQLNamedType]: the six kinds of named types of [graphql-js]. *)
Inductive GraphQLNamedType : Type :=
| GraphQLScalarType (name : string)
| GraphQLObjectType (name : string) (fields : list GraphQLField)
| GraphQLInterfaceType (name : string) (fields : list GraphQLField)
| GraphQLUnionType (name : string) (types : list string)
| GraphQLEnumType (name : string) (values : list GraphQLEnumValue)
| GraphQLInputObjectType (name : string) (fields : list GraphQLField).

(** [type.name] *)
Definition nameOf (t : GraphQLNamedType) : string :=
  match t with
  | GraphQLScalarType n => n
  | GraphQLObjectType n _ => n
  | GraphQLInterfaceType n _ => n
  | GraphQLUnionType n _ => n
  | GraphQLEnumType n _ => n
  | GraphQLInputObjectType n _ => n
  end.

Definition isObjectType (t : GraphQLNamedType) : bool :=
  match t with GraphQLObjectType _ _ => true | _ => false end.
Definition isEnumType (t : GraphQLNamedType) : bool :=
  match t with GraphQLEnumType _ _ => true | _ => false end.
Definition isScalarType (t : GraphQLNamedType) : bool :=
  match t with GraphQLScalarType _ => true | _ => false end.
Definition isInterfaceType (t : GraphQLNamedType) : bool :=
  match t with GraphQLInterfaceType _ _ => true | _ => false end.
Definition isUnionType (t : GraphQLNamedType) : bool :=
  match t with GraphQLUnionType _ _ => true | _ => false end.

(** ** The generator *)

Definition scalarTypeMap : list string :=
  ["String"; "Int"; "Float"; "Boolean"; "ID"; "NaiveTime"; "NaiveDate";
   "NaiveDateTime"].

Definition ignoreFields : list string := ["string"; "number"; "boolean"].

(** Lines 31 to 41: eight global replacements, [String] first and
    [NaiveDate] last, each on the result of the one before. *)
Definition mapGraphQLTypeToTSType (graphqlType : string) : string :=
  Js.replaceG "NaiveDate" "UTCDate"
   (Js.replaceG "NaiveTime" "UTCDate"
    (Js.replaceG "NaiveDateTime" "UTCDate"
     (Js.replaceG "ID" "string"
      (Js.replaceG "Boolean" "boolean"
       (Js.replaceG "Float" "number"
        (Js.replaceG "Int" "number"
         (Js.replaceG "String" "string" graphqlType))))))).

(** Lines 43 to 63: the [switch] on the whole scalar name. *)
Definition mapGraphQLScalarToTSType (scalarName : string) : string :=
  if String.eqb scalarName "String" then "string"
  else if String.eqb scalarName "Int" then "number"
  else if String.eqb scalarName "Float" then "number"
  else if String.eqb scalarName "Boolean" then "boolean"
  else if String.eqb scalarName "ID" then "string"
  else if String.eqb scalarName "NaiveDateTime" then "UTCDate"
  else if String.eqb scalarName "NaiveTime" then "UTCDate"
  else if String.eqb scalarName "NaiveDate" then "UTCDate"
  else "any".

(** Lines 65 to 67. *)
Definition lowercaseFirstLetter (str : string) : string :=
  Js.toLowerCase (Js.charAt0 str) ++ Js.slice str 1.

(** *** Object types: lines 72 to 100 *)

Definition dateImport : string :=
  "import type {UTCDate} from '@date-fns/utc';" ++ Js.nl.

Definition valueImport (cleanedType : string) : string :=
  "import {" ++ cleanedType ++ "} from " ++ Js.dquote ++ "./enums/"
    ++ lowercaseFirstLetter cleanedType ++ Js.dquote ++ ";" ++ Js.nl.

Definition typeImport (cleanedType : string) : string :=
  "import type {" ++ cleanedType ++ "} from " ++ Js.dquote ++ "./"
    ++ lowercaseFirstLetter cleanedType ++ Js.dquote ++ ";" ++ Js.nl.

(** Line 79: the base name used for the import. *)
Definition cleanedTypeOf (tsType : string) : string :=
  Js.removeBang (Js.replaceAllBrackets EmptyString tsType).

(** Lines 81 to 89: the update of [imports] for one field, whose mapped
    type is [tsType]; [type] is the object type being declared. *)
Definition updateImports (enumTypes : list string) (type : GraphQLNamedType)
    (imports tsType : string) : string :=
  let cleanedType := cleanedTypeOf tsType in
  if Js.includes tsType "UTCDate" then
    if negb (Js.includes imports "UTCDate")
    then imports ++ dateImport
    else imports
  else if negb (Js.includes imports cleanedType) then
    if negb (isScalarType type || Js.arrayIncludes ignoreFields cleanedType)
    then imports ++ (if Js.arrayIncludes enumTypes cleanedType
                     then valueImport cleanedType
                     else typeImport cleanedType)
    else imports
  else imports.

(** Lines 91 to 97: the property line of one field. *)
Definition propertyLine (fieldName tsType0 : string) : string :=
  let tsType := Js.replaceAllBrackets "[]" tsType0 in
  if Js.includes tsType "!"
  then "  " ++ fieldName ++ ": " ++ Js.removeBang tsType ++ ";"
  else "  " ++ fieldName ++ "?: " ++ tsType ++ ";".

(** Line 78. *)
Definition fieldTsType (field : GraphQLField) : string :=
  mapGraphQLTypeToTSType (toString (fieldType field)).

(** The callback of [map] is run on the fields in order; it returns the
    property line and updates the captured variable [imports]. *)
Definition objectImports (enumTypes : list string) (type : GraphQLNamedType)
    (imports : string) (fields : list GraphQLField) : string :=
  fold_left (fun imports field =>
               updateImports enumTypes type imports (fieldTsType field))
            fields imports.

Definition objectFieldLines (fields : list GraphQLField) : list string :=
  map (fun field => propertyLine (fieldName field) (fieldTsType field)) fields.

(** *** Interface types: lines 114 to 122 *)

Definition interfaceFieldLines (fields : list GraphQLField) : list string :=
  map (fun field => "  " ++ fieldName field ++ ": " ++ fieldTsType field ++ ";")
      fields.

(** *** Enum types: lines 103 to 107 *)

Definition enumMembers (values : list GraphQLEnumValue) : list string :=
  map (fun value => "  " ++ valueName value ++ " = " ++ Js.dquote
                      ++ valueValue value ++ Js.dquote)
      values.

(** [generateTypeScriptForType], reading the global [enumTypes]. *)
Definition generateTypeScriptForType (enumTypes : list string)
    (type : GraphQLNamedType) : string :=
  match type with
  | GraphQLObjectType name fields =>
      let imports := objectImports enumTypes type EmptyString fields in
      let fieldLines := Js.join Js.nl (objectFieldLines fields) in
      imports ++ Js.nl ++ "export interface " ++ name ++ " {" ++ Js.nl
        ++ fieldLines ++ Js.nl ++ "}"
  | GraphQLEnumType name values =>
      "export enum " ++ name ++ " {" ++ Js.nl
        ++ Js.join ("," ++ Js.nl) (enumMembers values) ++ Js.nl ++ "}"
  | GraphQLScalarType name =>
      "export type " ++ name ++ " = " ++ mapGraphQLScalarToTSType name ++ ";"
  | GraphQLInterfaceType name fields =>
      "export interface " ++ name ++ " {" ++ Js.nl
        ++ Js.join Js.nl (interfaceFieldLines fields) ++ Js.nl ++ "}"
  | GraphQLUnionType name types =>
      "export type " ++ name ++ " = " ++ Js.join " | " types ++ ";"
  | GraphQLInputObjectType _ _ => EmptyString
  end.

(** ** The walker: lines 213 to 252 of [main] *)

(** A file written below [outDir]: [enums/<fileName>] or [<fileName>]. *)
Record File : Type := mkFile {
  inEnums : bool;
  fileName : string;
  content : string
}.

(** What the two loops change: the global [enumTypes] and the files. *)
Record World : Type := mkWorld {
  enumTypes : list string;
  written : list File
}.

(** The type map: the keys in iteration order, each with its type. *)
Definition TypeMap : Type := list (string * GraphQLNamedType).

(** One iteration of the first loop (lines 217 to 234). *)
Definition enumIteration (ignore : list string) (w : World)
    (entry : string * GraphQLNamedType) : World :=
  let '(typeName, type) := entry in
  if Js.startsWith typeName "__" then w
  else if Js.arrayIncludes ignore typeName then w
  else if isScalarType type && Js.arrayIncludes scalarTypeMap (nameOf type)
  then w
  else if negb (isEnumType type) then w
  else
    let tsContent := generateTypeScriptForType (enumTypes w) type in
    if Js.truthy tsContent then
      mkWorld (enumTypes w ++ [nameOf type])
              (written w ++ [mkFile true
                               (lowercaseFirstLetter (nameOf type) ++ ".ts")
                               tsContent])
    else w.

(** One iteration of the second loop (lines 237 to 252). *)
Definition restIteration (ignore : list string) (w : World)
    (entry : string * GraphQLNamedType) : World :=
  let '(typeName, type) := entry in
  if Js.startsWith typeName "__" then w
  else if Js.arrayIncludes ignore typeName then w
  else if isScalarType type && Js.arrayIncludes scalarTypeMap (nameOf type)
  then w
  else if isEnumType type then w
  else
    let tsContent := generateTypeScriptForType (enumTypes w) type in
    if Js.truthy tsContent then
      mkWorld (enumTypes w)
              (written w ++ [mkFile false
                               (lowercaseFirstLetter (nameOf type) ++ ".ts")
                               tsContent])
    else w.

Definition generateEnums (ignore : list string) (typeMap : TypeMap)
    (w : World) : World :=
  fold_left (enumIteration ignore) typeMap w.

Definition generateRest (ignore : list string) (typeMap : TypeMap)
    (w : World) : World :=
  fold_left (restIteration ignore) typeMap w.

(** The two loops of [main], from the empty [enumTypes] of line 28. *)
Definition main (ignore : list string) (typeMap : TypeMap) : World :=
  generateRest ignore typeMap (generateEnums ignore typeMap (mkWorld [] [])).

(** ** Notions used to state the properties *)

(** The import line a field adds, if it adds one: the decision of lines 81
    to 89 without the text. *)
Inductive ImportLine : Type :=
| ImportDate
| ImportValue (cleanedType : string)
| ImportType (cleanedType : string).

Definition renderImportLine (l : ImportLine) : string :=
  match l with
  | ImportDate => dateImport
  | ImportValue c => valueImport c
  | ImportType c => typeImport c
  end.

(** The name between the braces of the line. *)
Definition importedName (l : ImportLine) : string :=
  match l with
  | ImportDate => "UTCDate"
  | ImportValue c => c
  | ImportType c => c
  end.

Definition isImportDate (l : ImportLine) : bool :=
  match l with ImportDate => true | _ => false end.

Definition emittedImport (enumTypes : list string) (type : GraphQLNamedType)
    (imports tsType : string) : option ImportLine :=
  let cleanedType := cleanedTypeOf tsType in
  if Js.includes tsType "UTCDate" then
    if negb (Js.includes imports "UTCDate") then Some ImportDate else None
  else if negb (Js.includes imports cleanedType) then
    if negb (isScalarType type || Js.arrayIncludes ignoreFields cleanedType)
    then Some (if Js.arrayIncludes enumTypes cleanedType
               then ImportValue cleanedType
               else ImportType cleanedType)
    else None
  else None.

Definition renderEmitted (o : option ImportLine) : string :=
  match o with
  | Some l => renderImportLine l
  | None => EmptyString
  end.

(** The lines added by the fields of a declaration, in order, each with the
    base name ([cleanedType]) of the field that added it. *)
Fixpoint importTrace (enumTypes : list string) (type : GraphQLNamedType)
    (imports : string) (fields : list GraphQLField)
  : list (string * ImportLine) :=
  match fields with
  | [] => []
  | field :: rest =>
      let tsType := fieldTsType field in
      let imports' := updateImports enumTypes type imports tsType in
      match emittedImport enumTypes type imports tsType with
      | Some l =>
          (cleanedTypeOf tsType, l) :: importTrace enumTypes type imports' rest
      | None => importTrace enumTypes type imports' rest
      end
  end.

Fixpoint concatLines (ls : list ImportLine) : string :=
  match ls with
  | [] => EmptyString
  | l :: ls' => renderImportLine l ++ concatLines ls'
  end.

(** Names of the GraphQL grammar: a letter or underscore, then letters,
    digits and underscores. *)
Definition isLetter (c : ascii) : bool :=
  let n := nat_of_ascii c in
  (Nat.leb 65 n && Nat.leb n 90) || (Nat.leb 97 n && Nat.leb n 122)
  || Nat.eqb n 95.

Definition isNameChar (c : ascii) : bool :=
  let n := nat_of_ascii c in
  isLetter c || (Nat.leb 48 n && Nat.leb n 57).

Fixpoint allChars (P : ascii -> bool) (s : string) : bool :=
  match s with
  | EmptyString => true
  | String c s' => P c && allChars P s'
  end.

Definition isName (s : string) : bool :=
  match s with
  | EmptyString => false
  | String c s' => isLetter c && allChars isNameChar s'
  end.

(** The named type at the bottom of a type reference. *)
Fixpoint namedTypeOf (t : GraphQLType) : string :=
  match t with
  | Named name => name
  | ListOf ofType => namedTypeOf ofType
  | NonNull ofType => namedTypeOf ofType
  end.

Definition wellNamed (field : GraphQLField) : bool :=
  isName (namedTypeOf (fieldType field)).

(** [Del D s s']: [s'] is [s] with some characters of the class [D]
    deleted. *)
Inductive Del (D : ascii -> bool) : string -> string -> Prop :=
| Del_nil : Del D EmptyString EmptyString
| Del_keep c s s' : Del D s s' -> Del D (String c s) (String c s')
| Del_drop c s s' : D c = true -> Del D s s' -> Del D (String c s) s'.

Definition isWrapper (c : ascii) : bool :=
  Ascii.eqb c "["%char || Ascii.eqb c "]"%char || Ascii.eqb c "!"%char.

Definition count_date (ls : list ImportLine) : nat :=
  List.length (filter isImportDate ls).

(** [avoids D p]: no character of [p] is in the class [D]. *)
Definition avoids (D : ascii -> bool) (p : string) : bool :=
  allChars (fun c => negb (D c)) p.

(** A field whose mapped type holds the date type. *)
Definition isDateField (field : GraphQLField) : bool :=
  Js.includes (fieldTsType field) "UTCDate".

(** The number of lines added by fields of base name [c]. *)
Definition baseCount (c : string) (tr : list (string * ImportLine)) : nat :=
  List.length (filter (fun e => String.eqb (fst e) c) tr).

(** No further line can come from a field of base name [c]. *)
Definition blocked (c imports : string) : bool :=
  if Js.includes c "UTCDate"
  then Js.includes imports "UTCDate"
  else Js.includes imports c.

Definition notLetter (c : ascii) : bool := negb (isLetter c).

(** ** Example schemas *)

Definition colorValues : list GraphQLEnumValue :=
  [mkEnumValue "RED" "RED"; mkEnumValue "GREEN" "GREEN"].

(** An enum, and an object with a field of that enum. *)
Definition itemSchema : TypeMap :=
  [ ("String", GraphQLScalarType "String");
    ("Color", GraphQLEnumType "Color" colorValues);
    ("Item", GraphQLObjectType "Item"
               [mkField "id" (NonNull (Named "ID"));
                mkField "color" (Named "Color");
                mkField "name" (NonNull (Named "String"))]) ].

(** The same, with a field of type [ColorType] before the enum field. *)
Definition kindField : GraphQLField := mkField "kind" (Named "ColorType").
Definition colorField : GraphQLField := mkField "color" (Named "Color").

Definition colorSchema : TypeMap :=
  [ ("Color", GraphQLEnumType "Color" colorValues);
    ("ColorType", GraphQLObjectType "ColorType"
                    [mkField "label" (Named "String")]);
    ("Item", GraphQLObjectType "Item" [kindField; colorField]) ].

(** An object type that refers to itself. *)
Definition parentField : GraphQLField := mkField "parent" (Named "Node").
Definition treeNode : GraphQLNamedType :=
  GraphQLObjectType "Node" [parentField].

(** An interface with a non-null field and a list field. *)
Definition entityInterface : GraphQLNamedType :=
  GraphQLInterfaceType "Entity"
    [mkField "id" (NonNull (Named "ID"));
     mkField "tags" (NonNull (ListOf (NonNull (Named "String"))))].

(** An object with two date fields and a repeated object reference. *)
Definition eventFields : list GraphQLField :=
  [mkField "start" (NonNull (Named "NaiveDateTime"));
   mkField "owner" (Named "User");
   mkField "end" (Named "NaiveDate");
   mkField "guests" (ListOf (NonNull (Named "User")))].

(** ** The start of [main]: lines 137 to 207 *)

(** The parsed configuration file, with the type line 138 declares:
    [schema] may be missing. *)
Record Config : Type := mkConfig {
  schema : option string;
  outDir : string;
  ignore : list string
}.

(** Where the schema is taken from (line 169). *)
Inductive SchemaSource : Type :=
| Introspection (url : string)
| SdlFile (path : string).

(** [process.exit(1)], or the values the rest of [main] works with. *)
Inductive Startup : Type :=
| Exit1
| Proceed (source : SchemaSource) (outDir : string) (ignore : list string).

(** Truthiness of [config.schema]: present and not empty. *)
Definition truthySchema (o : option string) : bool :=
  match o with
  | Some s => Js.truthy s
  | None => false
  end.

(** [config.schema || "https://localhost:5000"] *)
Definition schemaOrDefault (o : option string) : string :=
  match o with
  | Some s => if Js.truthy s then s else "https://localhost:5000"
  | None => "https://localhost:5000"
  end.

(** Lines 143 to 169; [parsed] is [None] when the file cannot be read or
    parsed. *)
Definition startup (parsed : option Config) : Startup :=
  match parsed with
  | None => Exit1
  | Some config =>
      if negb (truthySchema (schema config)) then Exit1
      else
        let schemaPath := schemaOrDefault (schema config) in
        if negb (Js.truthy schemaPath) || negb (Js.truthy (outDir config))
        then Exit1
        else if Js.startsWith schemaPath "http://"
                || Js.startsWith schemaPath "https://"
        then Proceed (Introspection schemaPath) (outDir config) (ignore config)
        else Proceed (SdlFile schemaPath) (outDir config) (ignore config)
  end.

(** ** Notions used to state further properties *)

(** The tests at the head of both loops. *)
Definition keptKey (ignore : list string) (typeName : string) : bool :=
  negb (Js.startsWith typeName "__") && negb (Js.arrayIncludes ignore typeName).

Definition builtinScalar (type : GraphQLNamedType) : bool :=
  isScalarType type && Js.arrayIncludes scalarTypeMap (nameOf type).

Definition isInputObjectType (t : GraphQLNamedType) : bool :=
  match t with GraphQLInputObjectType _ _ => true | _ => false end.

(** The entries of the type map for which the first loop writes a file,
    and those for which the second loop does. *)
Definition keptEnum (ignore : list string)
    (entry : string * GraphQLNamedType) : bool :=
  keptKey ignore (fst entry) && isEnumType (snd entry).

Definition keptRest (ignore : list string)
    (entry : string * GraphQLNamedType) : bool :=
  keptKey ignore (fst entry) && negb (builtinScalar (snd entry))
  && negb (isEnumType (snd entry)) && negb (isInputObjectType (snd entry)).

Definition enumFile (entry : string * GraphQLNamedType) : File :=
  mkFile true (lowercaseFirstLetter (nameOf (snd entry)) ++ ".ts")
         (generateTypeScriptForType [] (snd entry)).

Definition restFile (registry : list string)
    (entry : string * GraphQLNamedType) : File :=
  mkFile false (lowercaseFirstLetter (nameOf (snd entry)) ++ ".ts")
         (generateTypeScriptForType registry (snd entry)).

(** The number of list wrappers of a type reference, and whether it has a
    non-null wrapper. *)
Fixpoint listDepth (t : GraphQLType) : nat :=
  match t with
  | Named _ => 0
  | ListOf ofType => S (listDepth ofType)
  | NonNull ofType => listDepth ofType
  end.

Fixpoint hasNonNull (t : GraphQLType) : bool :=
  match t with
  | Named _ => false
  | ListOf ofType => hasNonNull ofType
  | NonNull _ => true
  end.

(** The markers printed after the outermost list or name. *)
Fixpoint outerMarkers (t : GraphQLType) : string :=
  match t with
  | Named _ => EmptyString
  | ListOf _ => EmptyString
  | NonNull ofType => outerMarkers ofType ++ "!"
  end.

(** The element type of the outermost list, if there is a list. *)
Fixpoint underList (t : GraphQLType) : option GraphQLType :=
  match t with
  | Named _ => None
  | ListOf ofType => Some ofType
  | NonNull ofType => underList ofType
  end.

(** A structural reading of what the object branch renders.  The printed
    type without its markers: *)
Fixpoint bareType (t : GraphQLType) : string :=
  match t with
  | Named name => mapGraphQLTypeToTSType name
  | ListOf ofType => "[" ++ bareType ofType ++ "]"
  | NonNull ofType => bareType ofType
  end.

(** the type of the property: the outermost list becomes a suffix, *)
Definition renderedType (t : GraphQLType) : string :=
  match underList t with
  | Some ofType => bareType ofType ++ "[]"
  | None => bareType t
  end.

(** the base name used for the import: the outermost list is dropped. *)
Definition baseNameOf (t : GraphQLType) : string :=
  match underList t with
  | Some ofType => bareType ofType
  | None => bareType t
  end.

Definition isBang (c : ascii) : bool := Ascii.eqb c "!"%char.

(** The member line of an enum value (line 105). *)
Definition enumMemberLine (value : GraphQLEnumValue) : string :=
  "  " ++ valueName value ++ " = " ++ Js.dquote ++ valueValue value
    ++ Js.dquote.

(** The property line of an interface field (line 119). *)
Definition interfaceLine (field : GraphQLField) : string :=
  "  " ++ fieldName field ++ ": " ++ fieldTsType field ++ ";".

(** An example configuration and schema. *)
Definition sampleConfig : Config :=
  mkConfig (Some "./schema.graphql") "./types" ["QueryRoot"].

Definition mixedSchema : TypeMap :=
  [ ("__Schema", GraphQLObjectType "__Schema" []);
    ("String", GraphQLScalarType "String");
    ("DateTime", GraphQLScalarType "DateTime");
    ("QueryRoot", GraphQLObjectType "QueryRoot"
                    [mkField "items" (ListOf (Named "Item"))]);
    ("Item", GraphQLObjectType "Item"
               [mkField "id" (NonNull (Named "ID"));
                mkField "color" (Named "Color");
                mkField "at" (NonNull (ListOf (NonNull (Named "NaiveDate"))))]);
    ("Color", GraphQLEnumType "Color" colorValues);
    ("Shape", GraphQLUnionType "Shape" ["Circle"; "Square"]);
    ("ItemFilter", GraphQLInputObjectType "ItemFilter" []) ].

(** ** Basic facts on strings *)

Section StringFacts.

Lemma append_nil_r (s : string) : s ++ EmptyString = s.
Proof. induction s as [|c s IH]; simpl; [reflexivity | now rewrite IH]. Qed.

Lemma append_assoc (a b c : string) : (a ++ b) ++ c = a ++ (b ++ c).
Proof. induction a as [|x a IH]; simpl; [reflexivity | now rewrite IH]. Qed.

Lemma length_append (a b : string) :
  String.length (a ++ b) = String.length a + String.length b.
Proof. induction a as [|x a IH]; simpl; [reflexivity | now rewrite IH]. Qed.

Lemma startsWith_spec (s p : string) :
  Js.startsWith s p = true <-> exists y, s = p ++ y.
Proof.
  revert s; induction p as [|a p IH]; intros s; simpl.
  - split; [intros _; now exists s | reflexivity].
  - destruct s as [|b s].
    + split; [discriminate | intros [y Hy]; discriminate].
    + rewrite andb_true_iff, Ascii.eqb_eq, IH. split.
      * intros [-> [y ->]]. now exists y.
      * intros [y Hy]. injection Hy as -> ->. split; [reflexivity | now exists y].
Qed.

Lemma includes_spec (s p : string) :
  Js.includes s p = true <-> exists x y, s = x ++ p ++ y.
Proof.
  induction s as [|c s IH]; simpl.
  - rewrite orb_false_r, startsWith_spec. split.
    + intros [y Hy]. now exists EmptyString, y.
    + intros [x [y H]]. destruct x; [now exists y | discriminate].
  - rewrite orb_true_iff, startsWith_spec, IH. split.
    + intros [[y Hy] | [x [y Hy]]].
      * now exists EmptyString, y.
      * exists (String c x), y. simpl. now rewrite Hy.
    + intros [x [y H]]. destruct x as [|d x]; simpl in H.
      * left. now exists y.
      * right. injection H as -> ->. now exists x, y.
Qed.

Lemma includes_refl (s : string) : Js.includes s s = true.
Proof.
  apply includes_spec. exists EmptyString, EmptyString.
  simpl. now rewrite append_nil_r.
Qed.

Lemma includes_app_l (s t p : string) :
  Js.includes s p = true -> Js.includes (s ++ t) p = true.
Proof.
  rewrite !includes_spec. intros [x [y ->]].
  exists x, (y ++ t). now rewrite !append_assoc.
Qed.

Lemma includes_app_r (s t p : string) :
  Js.includes t p = true -> Js.includes (s ++ t) p = true.
Proof.
  rewrite !includes_spec. intros [x [y ->]].
  exists (s ++ x), y. now rewrite !append_assoc.
Qed.

Lemma includes_trans (s p q : string) :
  Js.includes s p = true -> Js.includes p q = true -> Js.includes s q = true.
Proof.
  rewrite !includes_spec. intros [x [y ->]] [x' [y' ->]].
  exists (x ++ x'), (y' ++ y). now rewrite !append_assoc.
Qed.

End StringFacts.

(** ** Characters that separate occurrences *)

Section Separators.

Variable D : ascii -> bool.

Lemma allChars_app (P : ascii -> bool) (a b : string) :
  allChars P (a ++ b) = allChars P a && allChars P b.
Proof.
  induction a as [|c a IH]; simpl; [reflexivity|].
  now rewrite IH, andb_assoc.
Qed.

Lemma startsWith_sep (x y p : string) (d : ascii) :
  D d = true -> avoids D p = true ->
  Js.startsWith (x ++ String d y) p = Js.startsWith x p.
Proof.
  intros Hd. revert x. induction p as [|b p IH]; intros x Hp; [reflexivity|].
  simpl in Hp. apply andb_true_iff in Hp as [Hb Hp].
  destruct x as [|a x]; simpl.
  - destruct (Ascii.eqb_spec b d) as [->|_]; [|reflexivity].
    rewrite Hd in Hb. discriminate.
  - now rewrite IH.
Qed.

Lemma includes_sep (x y p : string) (d : ascii) :
  D d = true -> avoids D p = true -> p <> EmptyString ->
  Js.includes (x ++ String d y) p = Js.includes x p || Js.includes y p.
Proof.
  intros Hd Hp Hne. induction x as [|a x IH].
  - change (EmptyString ++ String d y) with (String d y).
    cbn [Js.includes].
    replace (Js.startsWith (String d y) p) with false.
    + replace (Js.startsWith EmptyString p) with false; [reflexivity|].
      destruct p; [contradiction | reflexivity].
    + destruct p as [|b p]; [contradiction|]. simpl.
      simpl in Hp. apply andb_true_iff in Hp as [Hb _].
      destruct (Ascii.eqb_spec b d) as [->|_]; [|reflexivity].
      rewrite Hd in Hb. discriminate.
  - change (String a x ++ String d y) with (String a (x ++ String d y)).
    cbn [Js.includes]. rewrite IH.
    change (String a (x ++ String d y)) with (String a x ++ String d y).
    rewrite startsWith_sep by assumption.
    now rewrite orb_assoc.
Qed.

(** Deleting separators keeps every occurrence of a text without them. *)

Lemma Del_refl (s : string) : Del D s s.
Proof. induction s; constructor; assumption. Qed.

Lemma Del_app (x x' z z' : string) :
  Del D x x' -> Del D z z' -> Del D (x ++ z) (x' ++ z').
Proof.
  intros Hx Hz. induction Hx; simpl; try assumption.
  - now apply Del_keep.
  - now apply Del_drop.
Qed.

Lemma Del_trans (a b c : string) : Del D a b -> Del D b c -> Del D a c.
Proof.
  intros Hab. revert c. induction Hab; intros c0 Hbc.
  - assumption.
  - inversion Hbc; subst.
    + apply Del_keep. now apply IHHab.
    + apply Del_drop; [assumption|]. now apply IHHab.
  - apply Del_drop; [assumption|]. now apply IHHab.
Qed.

Lemma Del_app_inv (x z w : string) :
  Del D (x ++ z) w ->
  exists x' z', w = x' ++ z' /\ Del D x x' /\ Del D z z'.
Proof.
  revert w. induction x as [|a x IH]; intros w H.
  - exists EmptyString, w. repeat split; [constructor | assumption].
  - simpl in H. inversion H; subst.
    + destruct (IH _ H3) as [x' [z' [-> [Hx Hz]]]].
      exists (String a x'), z'. repeat split; [now constructor | assumption].
    + destruct (IH _ H4) as [x' [z' [-> [Hx Hz]]]].
      exists x', z'. repeat split; [now apply Del_drop | assumption].
Qed.

Lemma Del_avoids (p p' : string) : avoids D p = true -> Del D p p' -> p' = p.
Proof.
  intros Hp H. induction H.
  - reflexivity.
  - simpl in Hp. apply andb_true_iff in Hp as [_ Hp]. now rewrite IHDel.
  - simpl in Hp. apply andb_true_iff in Hp as [Hc _].
    rewrite H in Hc. discriminate.
Qed.

Lemma Del_includes (s s' p : string) :
  avoids D p = true -> Del D s s' ->
  Js.includes s p = true -> Js.includes s' p = true.
Proof.
  intros Hp H. rewrite !includes_spec. intros [x [y ->]].
  apply Del_app_inv in H as [x' [w [-> [_ H]]]].
  apply Del_app_inv in H as [p' [y' [-> [Hp' _]]]].
  apply Del_avoids in Hp'; [subst p'|assumption].
  now exists x', y'.
Qed.

(** A class of characters of which only some are deleted. *)
Lemma Del_allChars (P : ascii -> bool) (s s' : string) :
  Del D s s' -> allChars P s = true -> allChars P s' = true.
Proof.
  intros H. induction H; simpl; intros Hs.
  - reflexivity.
  - apply andb_true_iff in Hs as [-> Hs]. now apply IHDel.
  - apply andb_true_iff in Hs as [_ Hs]. now apply IHDel.
Qed.

Lemma avoids_slice (s : string) (n : nat) :
  avoids D s = true -> avoids D (Js.slice s n) = true.
Proof.
  revert s. induction n as [|n IH]; intros s Hs; [assumption|].
  destruct s as [|a s]; [reflexivity|].
  simpl in Hs. apply andb_true_iff in Hs as [_ Hs]. now apply IH.
Qed.

(** Replacing by a text without separators adds none. *)
Lemma replaceLiteral_avoids (pat rep : string) (fuel : nat) (s : string) :
  avoids D rep = true ->
  avoids D s = true -> avoids D (Js.replaceLiteral fuel pat rep s) = true.
Proof.
  intros Hrep. revert s. induction fuel as [|fuel IH]; intros s Hs;
    [assumption|].
  destruct s as [|c s]; [reflexivity|].
  cbn [Js.replaceLiteral].
  destruct (Js.startsWith (String c s) pat).
  - unfold avoids. rewrite allChars_app. apply andb_true_iff. split.
    + exact Hrep.
    + apply IH. now apply avoids_slice.
  - simpl in Hs. apply andb_true_iff in Hs as [Hc Hs].
    unfold avoids. cbn [allChars]. apply andb_true_iff. split.
    + exact Hc.
    + now apply IH.
Qed.

Lemma avoids_includes_char (s : string) (ch : ascii) :
  D ch = true -> avoids D s = true ->
  Js.includes s (String ch EmptyString) = false.
Proof.
  intros Hch. induction s as [|c s IH]; intros Hs; [reflexivity|].
  simpl in Hs. apply andb_true_iff in Hs as [Hc Hs].
  cbn [Js.includes Js.startsWith]. rewrite (IH Hs), andb_true_r, orb_false_r.
  destruct (Ascii.eqb_spec ch c) as [->|_]; [|reflexivity].
  rewrite Hch in Hc. discriminate.
Qed.

End Separators.

(** ** The bracket expression and the removal of the markers *)

Section Brackets.

Lemma lastClose_spec (s cap rest : string) :
  Js.lastClose s = Some (cap, rest) -> s = cap ++ String "]"%char rest.
Proof.
  revert cap rest. induction s as [|c s IH]; intros cap rest; simpl.
  - discriminate.
  - destruct (Js.lineTerminator c); [discriminate|].
    destruct (Js.lastClose s) as [[cap' rest']|].
    + intros [= <- <-]. simpl. now rewrite (IH cap' rest').
    + destruct (Ascii.eqb_spec c "]"%char) as [->|_]; [|discriminate].
      now intros [= <- <-].
Qed.

(** Once the fuel covers the text, more fuel changes nothing. *)
Lemma replaceBrackets_fuel (suffix : string) (f1 f2 : nat) (s : string) :
  String.length s <= f1 -> String.length s <= f2 ->
  Js.replaceBrackets f1 suffix s = Js.replaceBrackets f2 suffix s.
Proof.
  revert f2 s. induction f1 as [|f1 IH]; intros f2 s H1 H2.
  - destruct s; [|simpl in H1; lia]. now destruct f2.
  - destruct s as [|c s]; [now destruct f2|].
    destruct f2 as [|f2]; [simpl in H2; lia|].
    simpl in H1, H2. cbn [Js.replaceBrackets].
    destruct (Ascii.eqb c "["%char).
    + destruct (Js.lastClose s) as [[cap rest]|] eqn:E.
      * apply lastClose_spec in E. subst s.
        rewrite length_append in H1, H2. simpl in H1, H2.
        do 2 f_equal. apply IH; lia.
      * f_equal. apply IH; lia.
    + f_equal. apply IH; lia.
Qed.

Lemma replaceBrackets_Del (fuel : nat) (s : string) :
  String.length s <= fuel ->
  Del isWrapper s (Js.replaceBrackets fuel EmptyString s).
Proof.
  revert s. induction fuel as [|fuel IH]; intros s Hlen.
  - apply Del_refl.
  - destruct s as [|c s]; simpl; [constructor|].
    simpl in Hlen.
    destruct (Ascii.eqb_spec c "["%char) as [->|_].
    + destruct (Js.lastClose s) as [[cap rest]|] eqn:E.
      * apply lastClose_spec in E. subst s.
        rewrite length_append in Hlen. simpl in Hlen.
        apply Del_drop; [reflexivity|].
        apply Del_app; [apply Del_refl|].
        apply Del_drop; [reflexivity|]. apply IH. lia.
      * apply Del_keep, IH. lia.
    + apply Del_keep, IH. lia.
Qed.

Lemma removeBang_Del (s : string) : Del isWrapper s (Js.removeBang s).
Proof.
  induction s as [|c s IH]; simpl; [constructor|].
  destruct (Ascii.eqb_spec c "!"%char) as [->|_].
  - now apply Del_drop.
  - now apply Del_keep.
Qed.

Lemma cleanedTypeOf_Del (tsType : string) :
  Del isWrapper tsType (cleanedTypeOf tsType).
Proof.
  unfold cleanedTypeOf, Js.replaceAllBrackets.
  apply Del_trans
    with (b := Js.replaceBrackets (String.length tsType) EmptyString tsType).
  - apply replaceBrackets_Del, Nat.le_refl.
  - apply removeBang_Del.
Qed.

(** An occurrence of [UTCDate] in the mapped type is one in the base name. *)
Lemma cleanedTypeOf_date (tsType : string) :
  Js.includes tsType "UTCDate" = true ->
  Js.includes (cleanedTypeOf tsType) "UTCDate" = true.
Proof.
  apply (Del_includes isWrapper); [reflexivity | apply cleanedTypeOf_Del].
Qed.

End Brackets.

(** ** The import decision of one field *)

Section ImportStep.

Variable enumTypes0 : list string.
Variable type : GraphQLNamedType.

Lemma updateImports_emitted (imports tsType : string) :
  updateImports enumTypes0 type imports tsType
  = imports ++ renderEmitted (emittedImport enumTypes0 type imports tsType).
Proof.
  unfold updateImports, emittedImport.
  destruct (Js.includes tsType "UTCDate").
  - destruct (negb (Js.includes imports "UTCDate")); simpl;
      [reflexivity | now rewrite append_nil_r].
  - destruct (negb (Js.includes imports (cleanedTypeOf tsType)));
      [|simpl; now rewrite append_nil_r].
    destruct (negb (isScalarType type
                    || Js.arrayIncludes ignoreFields (cleanedTypeOf tsType)));
      [|simpl; now rewrite append_nil_r].
    destruct (Js.arrayIncludes enumTypes0 (cleanedTypeOf tsType)); reflexivity.
Qed.

Lemma renderImportLine_name (l : ImportLine) :
  Js.includes (renderImportLine l) (importedName l) = true.
Proof.
  apply includes_spec. destruct l as [|c|c]; cbn [renderImportLine importedName].
  - exists "import type {", ("} from '@date-fns/utc';" ++ Js.nl). reflexivity.
  - exists "import {". eexists. unfold valueImport. reflexivity.
  - exists "import type {". eexists. unfold typeImport. reflexivity.
Qed.

Lemma objectImports_trace (fields : list GraphQLField) (imports : string) :
  objectImports enumTypes0 type imports fields
  = imports ++ concatLines (map snd (importTrace enumTypes0 type imports fields)).
Proof.
  revert imports. induction fields as [|f fs IH]; intros imports.
  - simpl. now rewrite append_nil_r.
  - unfold objectImports in *. cbn [fold_left importTrace].
    rewrite IH. rewrite updateImports_emitted at 1.
    destruct (emittedImport enumTypes0 type imports (fieldTsType f)); simpl.
    + now rewrite append_assoc.
    + now rewrite append_nil_r.
Qed.

Lemma concatLines_includes (ls : list ImportLine) (l : ImportLine) (p : string) :
  In l ls -> Js.includes (renderImportLine l) p = true ->
  Js.includes (concatLines ls) p = true.
Proof.
  induction ls as [|a ls IH]; simpl; [contradiction|].
  intros [->|Hin] Hp.
  - now apply includes_app_l.
  - apply includes_app_r. now apply IH.
Qed.

(** A field whose base name already occurs in the import text adds
    nothing. *)
Lemma updateImports_contained (imports tsType : string) :
  Js.includes imports (cleanedTypeOf tsType) = true ->
  updateImports enumTypes0 type imports tsType = imports.
Proof.
  intros Hc. unfold updateImports.
  destruct (Js.includes tsType "UTCDate") eqn:Hd.
  - apply cleanedTypeOf_date in Hd.
    now rewrite (includes_trans _ _ _ Hc Hd).
  - now rewrite Hc.
Qed.

Lemma ignoreFields_no_date (c : string) :
  Js.arrayIncludes ignoreFields c = true -> Js.includes c "UTCDate" = false.
Proof.
  unfold ignoreFields. cbn [Js.arrayIncludes].
  rewrite orb_false_r, !orb_true_iff, !String.eqb_eq.
  intros [<-|[<-|<-]]; reflexivity.
Qed.

(** A field whose base name is [string], [number] or [boolean] adds
    nothing. *)
Lemma updateImports_primitive (imports tsType : string) :
  Js.arrayIncludes ignoreFields (cleanedTypeOf tsType) = true ->
  updateImports enumTypes0 type imports tsType = imports.
Proof.
  intros Hp. unfold updateImports.
  destruct (Js.includes tsType "UTCDate") eqn:Hd.
  - apply cleanedTypeOf_date in Hd.
    rewrite (ignoreFields_no_date _ Hp) in Hd. discriminate.
  - rewrite Hp, orb_true_r. simpl.
    now destruct (negb (Js.includes imports (cleanedTypeOf tsType))).
Qed.

Lemma objectImports_app (pre post : list GraphQLField) (imports : string) :
  objectImports enumTypes0 type imports (pre ++ post)
  = objectImports enumTypes0 type
      (objectImports enumTypes0 type imports pre) post.
Proof. unfold objectImports. apply fold_left_app. Qed.

Lemma objectImports_extends (fields : list GraphQLField) (imports : string) :
  exists rest, objectImports enumTypes0 type imports fields = imports ++ rest.
Proof. eexists. apply objectImports_trace. Qed.

End ImportStep.

(** ** The two loops *)

Section Walker.

Variable ignore : list string.

Lemma arrayIncludes_app (xs ys : list string) (x : string) :
  Js.arrayIncludes (xs ++ ys) x = Js.arrayIncludes xs x || Js.arrayIncludes ys x.
Proof.
  induction xs as [|y xs IH]; simpl; [reflexivity|].
  now rewrite IH, orb_assoc.
Qed.

Lemma truthy_app_r (a b : string) (c : ascii) :
  Js.truthy (a ++ String c b) = true.
Proof. destruct a; reflexivity. Qed.

Lemma enumIteration_grows (w : World) (e : string * GraphQLNamedType)
    (c : string) :
  Js.arrayIncludes (enumTypes w) c = true ->
  Js.arrayIncludes (enumTypes (enumIteration ignore w e)) c = true.
Proof.
  intros H. destruct e as [k t]. unfold enumIteration.
  repeat match goal with
         | |- context [if ?b then _ else _] => destruct b
         end; try assumption.
  cbn [enumTypes]. now rewrite arrayIncludes_app, H.
Qed.

Lemma generateEnums_grows (typeMap : TypeMap) (w : World) (c : string) :
  Js.arrayIncludes (enumTypes w) c = true ->
  Js.arrayIncludes (enumTypes (generateEnums ignore typeMap w)) c = true.
Proof.
  revert w. induction typeMap as [|e tm IH]; intros w H; [assumption|].
  apply IH, enumIteration_grows, H.
Qed.

(** Every enum type that is neither a meta-type nor ignored is recorded by
    the first loop. *)
Lemma generateEnums_registers (typeMap : TypeMap) (w : World) (c : string)
    (values : list GraphQLEnumValue) :
  In (c, GraphQLEnumType c values) typeMap ->
  Js.startsWith c "__" = false ->
  Js.arrayIncludes ignore c = false ->
  Js.arrayIncludes (enumTypes (generateEnums ignore typeMap w)) c = true.
Proof.
  intros Hin Hmeta Hign. revert w.
  induction typeMap as [|e tm IH]; intros w; [contradiction|].
  destruct Hin as [->|Hin]; [|now apply IH].
  apply (generateEnums_grows tm).
  unfold enumIteration. rewrite Hmeta, Hign.
  cbn [isScalarType andb isEnumType negb generateTypeScriptForType
       Js.truthy append nameOf enumTypes].
  rewrite arrayIncludes_app. cbn [Js.arrayIncludes].
  now rewrite String.eqb_refl, orb_true_r.
Qed.

Lemma restIteration_enumTypes (w : World) (e : string * GraphQLNamedType) :
  enumTypes (restIteration ignore w e) = enumTypes w.
Proof.
  destruct e as [k t]. unfold restIteration.
  repeat match goal with
         | |- context [if ?b then _ else _] => destruct b
         end; reflexivity.
Qed.

Lemma generateRest_enumTypes (typeMap : TypeMap) (w : World) :
  enumTypes (generateRest ignore typeMap w) = enumTypes w.
Proof.
  revert w. induction typeMap as [|e tm IH]; intros w; [reflexivity|].
  unfold generateRest in *. cbn [fold_left].
  now rewrite IH, restIteration_enumTypes.
Qed.

Lemma restIteration_keeps (w : World) (e : string * GraphQLNamedType)
    (f : File) :
  In f (written w) -> In f (written (restIteration ignore w e)).
Proof.
  intros H. destruct e as [k t]. unfold restIteration.
  repeat match goal with
         | |- context [if ?b then _ else _] => destruct b
         end; try assumption.
  cbn [written]. apply in_or_app. now left.
Qed.

Lemma generateRest_keeps (typeMap : TypeMap) (w : World) (f : File) :
  In f (written w) -> In f (written (generateRest ignore typeMap w)).
Proof.
  revert w. induction typeMap as [|e tm IH]; intros w H; [assumption|].
  apply IH, restIteration_keeps, H.
Qed.

(** Every object type that is neither a meta-type nor ignored gets its
    file in the second loop, generated with the [enumTypes] of the start
    of that loop. *)
Lemma generateRest_writes_object (typeMap : TypeMap) (w : World)
    (key name : string) (fields : list GraphQLField) :
  In (key, GraphQLObjectType name fields) typeMap ->
  Js.startsWith key "__" = false ->
  Js.arrayIncludes ignore key = false ->
  In (mkFile false (lowercaseFirstLetter name ++ ".ts")
        (generateTypeScriptForType (enumTypes w)
           (GraphQLObjectType name fields)))
     (written (generateRest ignore typeMap w)).
Proof.
  intros Hin Hmeta Hign. revert w.
  induction typeMap as [|e tm IH]; intros w; [contradiction|].
  destruct Hin as [->|Hin].
  - apply (generateRest_keeps tm).
    unfold restIteration. rewrite Hmeta, Hign.
    cbn [isScalarType andb isEnumType nameOf].
    cbv beta zeta.
    replace (Js.truthy _) with true.
    + cbn [written]. apply in_or_app. right. now left.
    + symmetry. cbn [generateTypeScriptForType]. unfold Js.nl.
      apply truthy_app_r.
  - unfold generateRest. cbn [fold_left].
    rewrite <- (restIteration_enumTypes w e). now apply IH.
Qed.

(** A type of none of the five handled kinds changes nothing. *)
Lemma unhandled_is_input (t : GraphQLNamedType) :
  isObjectType t = false -> isEnumType t = false -> isScalarType t = false ->
  isInterfaceType t = false -> isUnionType t = false ->
  exists name fields, t = GraphQLInputObjectType name fields.
Proof. destruct t; try discriminate. intros. now eexists _, _. Qed.

Lemma enumIteration_input (w : World) (key name : string)
    (fields : list GraphQLField) :
  enumIteration ignore w (key, GraphQLInputObjectType name fields) = w.
Proof.
  unfold enumIteration. cbn [isScalarType isEnumType andb negb].
  now destruct (Js.startsWith key "__"), (Js.arrayIncludes ignore key).
Qed.

Lemma restIteration_input (w : World) (key name : string)
    (fields : list GraphQLField) :
  restIteration ignore w (key, GraphQLInputObjectType name fields) = w.
Proof.
  unfold restIteration.
  cbn [isScalarType isEnumType andb generateTypeScriptForType Js.truthy].
  now destruct (Js.startsWith key "__"), (Js.arrayIncludes ignore key).
Qed.

End Walker.

(** ** Printed type references: wrappers around a name *)

Section Shape.

Lemma startsWith_sep_head (d : ascii) (y p : string) :
  isWrapper d = true -> avoids isWrapper p = true -> p <> EmptyString ->
  Js.startsWith (String d y) p = false.
Proof.
  intros Hd Hp Hne. destruct p as [|b p]; [contradiction|].
  simpl in *. apply andb_true_iff in Hp as [Hb _].
  destruct (Ascii.eqb_spec b d) as [->|_]; [|reflexivity].
  rewrite Hd in Hb. discriminate.
Qed.

Lemma startsWith_sep_all (x k p : string) :
  allChars isWrapper k = true -> avoids isWrapper p = true ->
  Js.startsWith (x ++ k) p = Js.startsWith x p.
Proof.
  intros Hk Hp. destruct k as [|d k].
  - now rewrite append_nil_r.
  - simpl in Hk. apply andb_true_iff in Hk as [Hd _].
    now apply startsWith_sep with (D := isWrapper).
Qed.

Lemma includes_seps_false (k p : string) :
  allChars isWrapper k = true -> avoids isWrapper p = true -> p <> EmptyString ->
  Js.includes k p = false.
Proof.
  intros Hk Hp Hne. induction k as [|d k IH].
  - destruct p; [contradiction | reflexivity].
  - simpl in Hk. apply andb_true_iff in Hk as [Hd Hk].
    cbn [Js.includes]. rewrite startsWith_sep_head by assumption.
    now apply IH.
Qed.

Lemma includes_strip (o m k p : string) :
  allChars isWrapper o = true -> allChars isWrapper k = true ->
  avoids isWrapper p = true -> p <> EmptyString ->
  Js.includes (o ++ m ++ k) p = Js.includes m p.
Proof.
  intros Ho Hk Hp Hne. induction o as [|d o IH].
  - simpl. destruct k as [|d k].
    + now rewrite append_nil_r.
    + simpl in Hk. apply andb_true_iff in Hk as [Hd Hk].
      rewrite (includes_sep isWrapper) by assumption.
      now rewrite (includes_seps_false k p), orb_false_r.
  - simpl in Ho. apply andb_true_iff in Ho as [Hd Ho].
    change (String d o ++ m ++ k) with (String d (o ++ m ++ k)).
    cbn [Js.includes]. rewrite startsWith_sep_head by assumption.
    now apply IH.
Qed.

Lemma slice_app_length (p y : string) :
  Js.slice (p ++ y) (String.length p) = y.
Proof.
  induction p as [|a p IH]; [now destruct y|].
  cbn [append String.length Js.slice]. exact IH.
Qed.

Variables pat rep : string.
Hypothesis pat_avoids : avoids isWrapper pat = true.
Hypothesis pat_nonempty : pat <> EmptyString.

Lemma pat_length : 1 <= String.length pat.
Proof. destruct pat; [contradiction | simpl; lia]. Qed.

(** Once the fuel covers the text, more fuel changes nothing. *)
Lemma replaceLiteral_fuel (f1 f2 : nat) (s : string) :
  String.length s <= f1 -> String.length s <= f2 ->
  Js.replaceLiteral f1 pat rep s = Js.replaceLiteral f2 pat rep s.
Proof.
  revert f2 s. induction f1 as [|f1 IH]; intros f2 s H1 H2.
  - destruct s; [|simpl in H1; lia]. now destruct f2.
  - destruct s as [|c s]; [now destruct f2|].
    destruct f2 as [|f2]; [simpl in H2; lia|].
    cbn [Js.replaceLiteral].
    destruct (Js.startsWith (String c s) pat) eqn:E.
    + apply startsWith_spec in E as [y Hy].
      rewrite Hy, slice_app_length.
      assert (Hl := pat_length).
      apply (f_equal String.length) in Hy.
      rewrite length_append in Hy. simpl in Hy, H1, H2.
      f_equal. apply IH; lia.
    + simpl in H1, H2. f_equal. apply IH; lia.
Qed.

Lemma replaceLiteral_seps (fuel : nat) (k : string) :
  allChars isWrapper k = true -> Js.replaceLiteral fuel pat rep k = k.
Proof.
  revert k. induction fuel as [|fuel IH]; intros k Hk; [reflexivity|].
  destruct k as [|d k]; [reflexivity|].
  simpl in Hk. apply andb_true_iff in Hk as [Hd Hk].
  cbn [Js.replaceLiteral].
  rewrite startsWith_sep_head by assumption.
  now rewrite IH.
Qed.

Lemma replaceLiteral_app_seps (fuel : nat) (x k : string) :
  allChars isWrapper k = true ->
  String.length (x ++ k) <= fuel ->
  Js.replaceLiteral fuel pat rep (x ++ k)
  = Js.replaceLiteral fuel pat rep x ++ k.
Proof.
  intros Hk. revert x. induction fuel as [|fuel IH]; intros x Hlen.
  - reflexivity.
  - destruct x as [|a x].
    + simpl append. now rewrite replaceLiteral_seps.
    + change (String a x ++ k) with (String a (x ++ k)) in *.
      cbn [Js.replaceLiteral].
      change (String a (x ++ k)) with (String a x ++ k).
      rewrite startsWith_sep_all by assumption.
      destruct (Js.startsWith (String a x) pat) eqn:E.
      * apply startsWith_spec in E as [y Hy].
        rewrite Hy, append_assoc, !slice_app_length.
        assert (Hl := pat_length).
        assert (Hlen' : String.length (y ++ k) <= fuel).
        { simpl in Hlen. apply (f_equal String.length) in Hy.
          rewrite length_append in *. simpl in Hy. lia. }
        now rewrite IH, append_assoc.
      * simpl in Hlen. simpl. f_equal. apply IH. lia.
Qed.

Lemma replaceG_shape (o m k : string) :
  allChars isWrapper o = true -> allChars isWrapper k = true ->
  Js.replaceG pat rep (o ++ m ++ k) = o ++ Js.replaceG pat rep m ++ k.
Proof.
  intros Ho Hk. induction o as [|d o IH].
  - simpl. unfold Js.replaceG.
    rewrite replaceLiteral_app_seps by (assumption || apply Nat.le_refl).
    f_equal. apply replaceLiteral_fuel; [|apply Nat.le_refl].
    rewrite length_append. lia.
  - simpl in Ho. apply andb_true_iff in Ho as [Hd Ho].
    change (String d o ++ m ++ k) with (String d (o ++ m ++ k)).
    unfold Js.replaceG in *. cbn [String.length Js.replaceLiteral].
    rewrite startsWith_sep_head by assumption.
    now rewrite IH.
Qed.

End Shape.

Section MappedType.

Lemma mapGraphQLTypeToTSType_shape (o n k : string) :
  allChars isWrapper o = true -> allChars isWrapper k = true ->
  mapGraphQLTypeToTSType (o ++ n ++ k) = o ++ mapGraphQLTypeToTSType n ++ k.
Proof.
  intros Ho Hk. unfold mapGraphQLTypeToTSType.
  repeat (rewrite replaceG_shape; [|reflexivity|discriminate|exact Ho|exact Hk]).
  reflexivity.
Qed.

Lemma mapGraphQLTypeToTSType_avoids (n : string) :
  avoids isWrapper n = true ->
  avoids isWrapper (mapGraphQLTypeToTSType n) = true.
Proof.
  intros Hn. unfold mapGraphQLTypeToTSType, Js.replaceG.
  repeat (apply replaceLiteral_avoids; [reflexivity|]).
  exact Hn.
Qed.

Lemma toString_shape (t : GraphQLType) :
  exists o k, toString t = o ++ namedTypeOf t ++ k
              /\ allChars isWrapper o = true /\ allChars isWrapper k = true.
Proof.
  induction t as [n|t [o [k [E [Ho Hk]]]]|t [o [k [E [Ho Hk]]]]]; simpl.
  - exists EmptyString, EmptyString. simpl. now rewrite append_nil_r.
  - exists (String "["%char o), (k ++ "]"). rewrite E. repeat split.
    + simpl. now rewrite !append_assoc.
    + simpl. exact Ho.
    + rewrite allChars_app, Hk. reflexivity.
  - exists o, (k ++ "!"). rewrite E. repeat split.
    + now rewrite !append_assoc.
    + exact Ho.
    + rewrite allChars_app, Hk. reflexivity.
Qed.

Lemma isNameChar_not_wrapper (c : ascii) :
  isNameChar c = true -> negb (isWrapper c) = true.
Proof.
  destruct c as [[] [] [] [] [] [] [] []]; vm_compute; congruence.
Qed.

Lemma isLetter_isNameChar (c : ascii) : isLetter c = true -> isNameChar c = true.
Proof. unfold isNameChar. now intros ->. Qed.

Lemma isName_avoids (n : string) :
  isName n = true -> avoids isWrapper n = true.
Proof.
  destruct n as [|c n]; [discriminate|]. simpl.
  intros H. apply andb_true_iff in H as [Hc Hn].
  unfold avoids. cbn [allChars].
  rewrite (isNameChar_not_wrapper c (isLetter_isNameChar c Hc)). simpl.
  induction n as [|d n IH]; [reflexivity|].
  simpl in Hn. apply andb_true_iff in Hn as [Hd Hn].
  cbn [allChars]. rewrite (isNameChar_not_wrapper d Hd). now apply IH.
Qed.

(** For a field of the schema, the base name holds [UTCDate] only if the
    mapped type does. *)
Lemma cleanedTypeOf_date_inv (field : GraphQLField) :
  wellNamed field = true ->
  Js.includes (cleanedTypeOf (fieldTsType field)) "UTCDate" = true ->
  Js.includes (fieldTsType field) "UTCDate" = true.
Proof.
  intros Hn. unfold fieldTsType.
  destruct (toString_shape (fieldType field)) as [o [k [E [Ho Hk]]]].
  rewrite E, mapGraphQLTypeToTSType_shape by assumption.
  set (m := mapGraphQLTypeToTSType (namedTypeOf (fieldType field))).
  assert (Hm : avoids isWrapper m = true)
    by now apply mapGraphQLTypeToTSType_avoids, isName_avoids.
  pose proof (cleanedTypeOf_Del (o ++ m ++ k)) as HD.
  apply Del_app_inv in HD as [o' [w [Ec [HDo HD]]]].
  apply Del_app_inv in HD as [m' [k' [-> [HDm HDk]]]].
  apply (Del_avoids isWrapper) in HDm; [subst m'|assumption].
  rewrite Ec.
  rewrite !includes_strip; try reflexivity; try assumption; try discriminate.
  - trivial.
  - now apply (Del_allChars isWrapper) with (s := o).
  - now apply (Del_allChars isWrapper) with (s := k).
Qed.

Lemma toLowerCaseChar_not_U (a : ascii) :
  Ascii.eqb "U"%char (Js.toLowerCaseChar a) = false.
Proof. destruct a as [[] [] [] [] [] [] [] []]; reflexivity. Qed.

Lemma lowercaseFirstLetter_date (c : string) :
  Js.includes (lowercaseFirstLetter c) "UTCDate" = true ->
  Js.includes c "UTCDate" = true.
Proof.
  destruct c as [|a c]; [discriminate|].
  unfold lowercaseFirstLetter.
  cbn [Js.charAt0 Js.toLowerCase Js.slice append Js.includes].
  change (Js.startsWith (String (Js.toLowerCaseChar a) c) "UTCDate")
    with (Ascii.eqb "U"%char (Js.toLowerCaseChar a)
          && Js.startsWith c "TCDate").
  rewrite toLowerCaseChar_not_U. simpl orb at 1. intros ->.
  apply orb_true_r.
Qed.

Lemma typeImport_date (c : string) :
  Js.includes (typeImport c) "UTCDate" = true ->
  Js.includes c "UTCDate" = true.
Proof.
  change (typeImport c)
    with ("import type " ++ String "{"%char
            (c ++ String "}"%char
               ((" from " ++ Js.dquote ++ ".") ++ String "/"%char
                  (lowercaseFirstLetter c ++ String "034"%char (";" ++ Js.nl))))).
  rewrite !(includes_sep notLetter) by (reflexivity || discriminate).
  change (Js.includes "import type " "UTCDate") with false.
  change (Js.includes (" from " ++ Js.dquote ++ ".") "UTCDate") with false.
  change (Js.includes (";" ++ Js.nl) "UTCDate") with false.
  rewrite !orb_false_l, orb_false_r. intros H.
  apply orb_true_iff in H as [H|H]; [assumption|].
  now apply lowercaseFirstLetter_date.
Qed.

Lemma valueImport_date (c : string) :
  Js.includes (valueImport c) "UTCDate" = true ->
  Js.includes c "UTCDate" = true.
Proof.
  change (valueImport c)
    with ("import " ++ String "{"%char
            (c ++ String "}"%char
               ((" from " ++ Js.dquote ++ "./enums") ++ String "/"%char
                  (lowercaseFirstLetter c ++ String "034"%char (";" ++ Js.nl))))).
  rewrite !(includes_sep notLetter) by (reflexivity || discriminate).
  change (Js.includes "import " "UTCDate") with false.
  change (Js.includes (" from " ++ Js.dquote ++ "./enums") "UTCDate") with false.
  change (Js.includes (";" ++ Js.nl) "UTCDate") with false.
  rewrite !orb_false_l, orb_false_r. intros H.
  apply orb_true_iff in H as [H|H]; [assumption|].
  now apply lowercaseFirstLetter_date.
Qed.

(** Every line starts with [import]: an occurrence of [UTCDate] does not
    span the end of the text and the start of a new line. *)
Lemma includes_app_line (imports : string) (l : ImportLine) :
  Js.includes (imports ++ renderImportLine l) "UTCDate"
  = Js.includes imports "UTCDate"
    || Js.includes (renderImportLine l) "UTCDate".
Proof.
  assert (E : exists tl, renderImportLine l = String "i"%char tl)
    by (destruct l; eexists; reflexivity).
  destruct E as [tl ->].
  rewrite (includes_sep (Ascii.eqb "i"%char)) by (reflexivity || discriminate).
  reflexivity.
Qed.

End MappedType.

(** ** The import lines of one declaration *)

Section Declaration.

Variable enumTypes0 : list string.
Variable type : GraphQLNamedType.

Lemma baseCount_cons (c b : string) (l : ImportLine)
    (tr : list (string * ImportLine)) :
  baseCount c ((b, l) :: tr)
  = (if String.eqb b c then 1 else 0) + baseCount c tr.
Proof. unfold baseCount. cbn [filter fst]. now destruct (String.eqb b c). Qed.

Lemma importTrace_cons (imports : string) (f : GraphQLField)
    (fs : list GraphQLField) :
  importTrace enumTypes0 type imports (f :: fs)
  = match emittedImport enumTypes0 type imports (fieldTsType f) with
    | Some l =>
        (cleanedTypeOf (fieldTsType f), l)
          :: importTrace enumTypes0 type (imports ++ renderImportLine l) fs
    | None => importTrace enumTypes0 type imports fs
    end.
Proof.
  cbn [importTrace]. rewrite updateImports_emitted.
  destruct (emittedImport enumTypes0 type imports (fieldTsType f)); simpl; [reflexivity|].
  now rewrite append_nil_r.
Qed.

Lemma emitted_date (imports tsType : string) :
  emittedImport enumTypes0 type imports tsType = Some ImportDate ->
  Js.includes tsType "UTCDate" = true /\ Js.includes imports "UTCDate" = false.
Proof.
  unfold emittedImport.
  destruct (Js.includes tsType "UTCDate").
  - destruct (Js.includes imports "UTCDate"); [discriminate | now split].
  - destruct (negb (Js.includes imports (cleanedTypeOf tsType)));
      [|discriminate].
    destruct (negb _); [|discriminate].
    destruct (Js.arrayIncludes enumTypes0 _); discriminate.
Qed.

Lemma emitted_named (imports tsType : string) (l : ImportLine) :
  emittedImport enumTypes0 type imports tsType = Some l -> isImportDate l = false ->
  Js.includes tsType "UTCDate" = false
  /\ Js.includes imports (cleanedTypeOf tsType) = false
  /\ importedName l = cleanedTypeOf tsType.
Proof.
  unfold emittedImport.
  destruct (Js.includes tsType "UTCDate").
  - destruct (negb (Js.includes imports "UTCDate")); [|discriminate].
    intros [= <-]. discriminate.
  - destruct (Js.includes imports (cleanedTypeOf tsType)); [discriminate|].
    cbn [negb]. destruct (negb _); [|discriminate].
    destruct (Js.arrayIncludes enumTypes0 _); intros [= <-] _; now repeat split.
Qed.

Lemma emitted_of_date_field (imports tsType : string) :
  Js.includes tsType "UTCDate" = true ->
  emittedImport enumTypes0 type imports tsType
  = if Js.includes imports "UTCDate" then None else Some ImportDate.
Proof.
  intros H. unfold emittedImport. rewrite H.
  now destruct (Js.includes imports "UTCDate").
Qed.

Lemma renderImportLine_date (l : ImportLine) :
  isImportDate l = false ->
  Js.includes (renderImportLine l) "UTCDate" = true ->
  Js.includes (importedName l) "UTCDate" = true.
Proof.
  destruct l as [|c|c]; [discriminate| |]; intros _.
  - apply valueImport_date.
  - apply typeImport_date.
Qed.

(** Once the text holds [UTCDate], no date line is added. *)
Lemma date_blocked (fields : list GraphQLField) (imports : string) :
  Js.includes imports "UTCDate" = true ->
  count_date (map snd (importTrace enumTypes0 type imports fields)) = 0.
Proof.
  revert imports. induction fields as [|f fs IH]; intros imports H;
    [reflexivity|].
  rewrite importTrace_cons.
  destruct (emittedImport enumTypes0 type imports (fieldTsType f)) as [l|] eqn:E; [|now apply IH].
  destruct l as [|c|c].
  - apply emitted_date in E as [_ E]. rewrite H in E. discriminate.
  - unfold count_date in *. cbn [map snd filter isImportDate].
    apply IH. now apply includes_app_l.
  - unfold count_date in *. cbn [map snd filter isImportDate].
    apply IH. now apply includes_app_l.
Qed.

Lemma date_none (fields : list GraphQLField) (imports : string) :
  existsb isDateField fields = false ->
  count_date (map snd (importTrace enumTypes0 type imports fields)) = 0.
Proof.
  revert imports. induction fields as [|f fs IH]; intros imports H;
    [reflexivity|].
  cbn [existsb] in H. apply orb_false_iff in H as [Hf H].
  rewrite importTrace_cons.
  destruct (emittedImport enumTypes0 type imports (fieldTsType f)) as [l|] eqn:E; [|now apply IH].
  destruct l as [|c|c].
  - apply emitted_date in E as [E _]. unfold isDateField in Hf.
    rewrite Hf in E. discriminate.
  - unfold count_date in *. cbn [map snd filter isImportDate]. now apply IH.
  - unfold count_date in *. cbn [map snd filter isImportDate]. now apply IH.
Qed.

(** With a date field and no [UTCDate] in the text yet, exactly one date
    line is added. *)
Lemma date_once (fields : list GraphQLField) (imports : string) :
  forallb wellNamed fields = true ->
  Js.includes imports "UTCDate" = false ->
  existsb isDateField fields = true ->
  count_date (map snd (importTrace enumTypes0 type imports fields)) = 1.
Proof.
  revert imports. induction fields as [|f fs IH]; intros imports Hn Hi Hex;
    [discriminate|].
  cbn [forallb] in Hn. apply andb_true_iff in Hn as [Hf Hn].
  cbn [existsb] in Hex.
  rewrite importTrace_cons.
  destruct (isDateField f) eqn:Hd.
  - unfold isDateField in Hd.
    rewrite (emitted_of_date_field _ _ Hd), Hi.
    unfold count_date. cbn [map snd filter isImportDate List.length].
    f_equal. apply date_blocked, includes_app_r. reflexivity.
  - simpl in Hex.
    destruct (emittedImport enumTypes0 type imports (fieldTsType f)) as [l|] eqn:E;
      [|now apply IH].
    destruct (isImportDate l) eqn:Hl.
    + destruct l; try discriminate.
      apply emitted_date in E as [E _]. unfold isDateField in Hd.
      rewrite Hd in E. discriminate.
    + destruct (emitted_named _ _ _ E Hl) as [_ [_ Hname]].
      assert (Hfree : Js.includes (imports ++ renderImportLine l) "UTCDate"
                      = false).
      { rewrite includes_app_line, Hi. simpl.
        destruct (Js.includes (renderImportLine l) "UTCDate") eqn:Hr;
          [|reflexivity].
        apply (renderImportLine_date l Hl) in Hr. rewrite Hname in Hr.
        apply (cleanedTypeOf_date_inv f Hf) in Hr.
        unfold isDateField in Hd. rewrite Hd in Hr. discriminate. }
      unfold count_date in *. cbn [map snd filter]. rewrite Hl.
      now apply IH.
Qed.

Lemma blocked_grows (c imports more : string) :
  blocked c imports = true -> blocked c (imports ++ more) = true.
Proof.
  unfold blocked. destruct (Js.includes c "UTCDate"); apply includes_app_l.
Qed.

(** Each base name adds at most one line, and none once it is blocked. *)
Lemma baseCount_bound (c : string) (fields : list GraphQLField)
    (imports : string) :
  forallb wellNamed fields = true ->
  baseCount c (importTrace enumTypes0 type imports fields) <= 1
  /\ (blocked c imports = true -> baseCount c (importTrace enumTypes0 type imports fields) = 0).
Proof.
  revert imports. induction fields as [|f fs IH]; intros imports Hn.
  - split; [apply Nat.le_0_l | reflexivity].
  - cbn [forallb] in Hn. apply andb_true_iff in Hn as [Hf Hn].
    rewrite importTrace_cons.
    destruct (emittedImport enumTypes0 type imports (fieldTsType f)) as [l|] eqn:E;
      [|now apply IH].
    rewrite baseCount_cons.
    destruct (String.eqb_spec (cleanedTypeOf (fieldTsType f)) c) as [Hc|Hc].
    + assert (Hb : blocked c imports = false
                   /\ blocked c (imports ++ renderImportLine l) = true).
      { unfold blocked. destruct (isImportDate l) eqn:Hl.
        - destruct l; try discriminate.
          apply emitted_date in E as [Hd Hi].
          rewrite <- Hc, (cleanedTypeOf_date _ Hd). split; [assumption|].
          apply includes_app_r. reflexivity.
        - destruct (emitted_named _ _ _ E Hl) as [Hd [Hi Hname]].
          destruct (Js.includes c "UTCDate") eqn:Hcd.
          + rewrite <- Hc in Hcd.
            apply (cleanedTypeOf_date_inv f Hf) in Hcd.
            rewrite Hd in Hcd. discriminate.
          + rewrite <- Hc. split; [assumption|].
            apply includes_app_r. rewrite <- Hname.
            apply renderImportLine_name. }
      destruct Hb as [Hb0 Hb1].
      destruct (IH (imports ++ renderImportLine l) Hn) as [_ IH0].
      rewrite (IH0 Hb1). split; [apply Nat.le_refl|].
      rewrite Hb0. discriminate.
    + destruct (IH (imports ++ renderImportLine l) Hn) as [IH1 IH0].
      split; [assumption|]. intros Hb. now apply IH0, blocked_grows.
Qed.

End Declaration.

(** ** Properties of the generator *)

Section ImportFacts.

Variable enumTypes0 : list string.
Variable type : GraphQLNamedType.

Lemma emittedImport_contained (imports tsType : string) :
  Js.includes imports (cleanedTypeOf tsType) = true ->
  emittedImport enumTypes0 type imports tsType = None.
Proof.
  intros Hc. unfold emittedImport.
  destruct (Js.includes tsType "UTCDate") eqn:Hd.
  - apply cleanedTypeOf_date in Hd.
    now rewrite (includes_trans _ _ _ Hc Hd).
  - now rewrite Hc.
Qed.

Lemma emittedImport_primitive (imports tsType : string) :
  Js.arrayIncludes ignoreFields (cleanedTypeOf tsType) = true ->
  emittedImport enumTypes0 type imports tsType = None.
Proof.
  intros Hp. unfold emittedImport.
  destruct (Js.includes tsType "UTCDate") eqn:Hd.
  - apply cleanedTypeOf_date in Hd.
    rewrite (ignoreFields_no_date _ Hp) in Hd. discriminate.
  - rewrite Hp, orb_true_r. simpl.
    now destruct (negb (Js.includes imports (cleanedTypeOf tsType))).
Qed.

Lemma emittedImport_registered (imports tsType : string) :
  Js.arrayIncludes enumTypes0 (cleanedTypeOf tsType) = true ->
  emittedImport enumTypes0 type imports tsType
  <> Some (ImportType (cleanedTypeOf tsType)).
Proof.
  intros Hr. unfold emittedImport. rewrite Hr.
  destruct (Js.includes tsType "UTCDate").
  - destruct (negb _); discriminate.
  - destruct (negb _); [|discriminate]. destruct (negb _); discriminate.
Qed.

Lemma updateImports_registered (imports tsType : string) :
  isScalarType type = false ->
  Js.arrayIncludes enumTypes0 (cleanedTypeOf tsType) = true ->
  Js.includes tsType "UTCDate" = false ->
  Js.arrayIncludes ignoreFields (cleanedTypeOf tsType) = false ->
  Js.includes imports (cleanedTypeOf tsType) = false ->
  updateImports enumTypes0 type imports tsType
  = imports ++ valueImport (cleanedTypeOf tsType).
Proof.
  intros Hs Hr Hd Hp Hc. unfold updateImports.
  now rewrite Hd, Hc, Hs, Hp, Hr.
Qed.

End ImportFacts.

Section MainFacts.

Variable ignore : list string.

Lemma main_enumTypes (typeMap : TypeMap) :
  enumTypes (main ignore typeMap)
  = enumTypes (generateEnums ignore typeMap (mkWorld [] [])).
Proof. unfold main. apply generateRest_enumTypes. Qed.

Lemma generateEnums_skip (before after : TypeMap) (w : World)
    (key name : string) (fields : list GraphQLField) :
  generateEnums ignore
    (before ++ (key, GraphQLInputObjectType name fields) :: after)%list w
  = generateEnums ignore (before ++ after)%list w.
Proof.
  unfold generateEnums. rewrite !fold_left_app. cbn [fold_left].
  now rewrite enumIteration_input.
Qed.

Lemma generateRest_skip (before after : TypeMap) (w : World)
    (key name : string) (fields : list GraphQLField) :
  generateRest ignore
    (before ++ (key, GraphQLInputObjectType name fields) :: after)%list w
  = generateRest ignore (before ++ after)%list w.
Proof.
  unfold generateRest. rewrite !fold_left_app. cbn [fold_left].
  now rewrite restIteration_input.
Qed.

End MainFacts.

(** ** The property line *)

Section Rendering.

Lemma includes_app_char (a b : string) (ch : ascii) :
  Js.includes (a ++ b) (String ch EmptyString)
  = Js.includes a (String ch EmptyString)
    || Js.includes b (String ch EmptyString).
Proof.
  induction a as [|c a IH].
  - simpl. reflexivity.
  - change (String c a ++ b) with (String c (a ++ b)).
    cbn [Js.includes Js.startsWith]. rewrite IH. now rewrite orb_assoc.
Qed.

(** The bracket expression neither adds nor removes a marker. *)
Lemma replaceBrackets_marker (fuel : nat) (suffix s : string) :
  Js.includes suffix "!" = false ->
  Js.includes (Js.replaceBrackets fuel suffix s) "!" = Js.includes s "!".
Proof.
  intros Hs. revert s. induction fuel as [|fuel IH]; intros s; [reflexivity|].
  destruct s as [|c s]; [reflexivity|].
  cbn [Js.replaceBrackets].
  destruct (Ascii.eqb_spec c "["%char) as [->|_].
  - destruct (Js.lastClose s) as [[cap rest]|] eqn:E.
    + apply lastClose_spec in E. subst s.
      change (String "["%char (cap ++ String "]"%char rest))
        with ("[" ++ cap ++ "]" ++ rest).
      rewrite !includes_app_char, IH, Hs. reflexivity.
    + cbn [Js.includes Js.startsWith]. now rewrite IH.
  - cbn [Js.includes Js.startsWith]. now rewrite IH.
Qed.

(** Line 92: the property is required exactly when the mapped type holds
    a marker somewhere. *)
Lemma propertyLine_marker (fieldName tsType : string) :
  propertyLine fieldName tsType
  = if Js.includes tsType "!"
    then "  " ++ fieldName ++ ": "
           ++ Js.removeBang (Js.replaceAllBrackets "[]" tsType) ++ ";"
    else "  " ++ fieldName ++ "?: " ++ Js.replaceAllBrackets "[]" tsType ++ ";".
Proof.
  unfold propertyLine, Js.replaceAllBrackets.
  now rewrite replaceBrackets_marker.
Qed.

Lemma includes_cons_false (c : ascii) (s p : string) :
  Js.includes (String c s) p = false -> Js.includes s p = false.
Proof.
  cbn [Js.includes]. intros H. now apply orb_false_iff in H as [_ H].
Qed.

Lemma lastClose_none (k : string) :
  Js.includes k "]" = false -> Js.lastClose k = None.
Proof.
  induction k as [|c k IH]; intros H; [reflexivity|].
  cbn [Js.lastClose]. destruct (Js.lineTerminator c); [reflexivity|].
  rewrite (IH (includes_cons_false _ _ _ H)).
  cbn [Js.includes Js.startsWith] in H.
  apply orb_false_iff in H as [H _]. rewrite andb_true_r in H.
  rewrite Ascii.eqb_sym in H. now rewrite H.
Qed.

(** From an opening bracket, the match ends at the last closing bracket
    of the line. *)
Lemma lastClose_line (x k : string) :
  avoids Js.lineTerminator x = true -> Js.includes k "]" = false ->
  Js.lastClose (x ++ String "]"%char k) = Some (x, k).
Proof.
  intros Hx Hk. induction x as [|c x IH].
  - simpl. now rewrite (lastClose_none k Hk).
  - simpl in Hx. apply andb_true_iff in Hx as [Hc Hx].
    apply negb_true_iff in Hc.
    change (String c x ++ String "]"%char k)
      with (String c (x ++ String "]"%char k)).
    cbn [Js.lastClose]. now rewrite Hc, (IH Hx).
Qed.

Lemma replaceBrackets_plain (fuel : nat) (suffix k : string) :
  Js.includes k "[" = false -> Js.replaceBrackets fuel suffix k = k.
Proof.
  revert k. induction fuel as [|fuel IH]; intros k H; [reflexivity|].
  destruct k as [|c k]; [reflexivity|].
  cbn [Js.replaceBrackets].
  rewrite (IH k (includes_cons_false _ _ _ H)).
  cbn [Js.includes Js.startsWith] in H.
  apply orb_false_iff in H as [H _]. rewrite andb_true_r in H.
  rewrite Ascii.eqb_sym in H. now rewrite H.
Qed.

(** The bracket expression on a printed list type: the text between the
    outer brackets is kept as it is. *)
Lemma replaceAllBrackets_list (suffix x k : string) :
  avoids Js.lineTerminator x = true ->
  Js.includes k "]" = false -> Js.includes k "[" = false ->
  Js.replaceAllBrackets suffix ("[" ++ x ++ "]" ++ k) = x ++ suffix ++ k.
Proof.
  intros Hx Hk1 Hk2. unfold Js.replaceAllBrackets.
  change ("[" ++ x ++ "]" ++ k) with (String "["%char (x ++ String "]"%char k)).
  cbn [String.length Js.replaceBrackets Ascii.eqb Bool.eqb].
  rewrite (lastClose_line x k Hx Hk1).
  now rewrite replaceBrackets_plain.
Qed.

Lemma removeBang_app (a b : string) :
  Js.removeBang (a ++ b) = Js.removeBang a ++ Js.removeBang b.
Proof.
  induction a as [|c a IH]; [reflexivity|]. simpl.
  destruct (Ascii.eqb c "!"%char); [assumption | simpl; now rewrite IH].
Qed.

Lemma removeBang_avoids (m : string) :
  avoids isWrapper m = true -> Js.removeBang m = m.
Proof.
  induction m as [|c m IH]; intros H; [reflexivity|].
  simpl in H. apply andb_true_iff in H as [Hc H]. simpl.
  rewrite (IH H).
  destruct (Ascii.eqb_spec c "!"%char) as [->|_]; [discriminate | reflexivity].
Qed.

Lemma mapGraphQLTypeToTSType_ListOf (t : GraphQLType) :
  mapGraphQLTypeToTSType (toString (ListOf t))
  = "[" ++ mapGraphQLTypeToTSType (toString t) ++ "]".
Proof.
  destruct (toString_shape t) as [o [k [E [Ho Hk]]]].
  cbn [toString]. rewrite E.
  rewrite (mapGraphQLTypeToTSType_shape o _ k Ho Hk).
  replace ("[" ++ (o ++ namedTypeOf t ++ k) ++ "]")
    with (("[" ++ o) ++ namedTypeOf t ++ (k ++ "]"))
    by (simpl; now rewrite !append_assoc).
  rewrite mapGraphQLTypeToTSType_shape.
  - simpl. now rewrite !append_assoc.
  - simpl. exact Ho.
  - rewrite allChars_app, Hk. reflexivity.
Qed.

Lemma mapGraphQLTypeToTSType_NonNull (t : GraphQLType) :
  mapGraphQLTypeToTSType (toString (NonNull t))
  = mapGraphQLTypeToTSType (toString t) ++ "!".
Proof.
  destruct (toString_shape t) as [o [k [E [Ho Hk]]]].
  cbn [toString]. rewrite E.
  rewrite (mapGraphQLTypeToTSType_shape o _ k Ho Hk).
  replace ((o ++ namedTypeOf t ++ k) ++ "!")
    with (o ++ namedTypeOf t ++ (k ++ "!"))
    by now rewrite !append_assoc.
  rewrite mapGraphQLTypeToTSType_shape.
  - now rewrite !append_assoc.
  - exact Ho.
  - rewrite allChars_app, Hk. reflexivity.
Qed.

Lemma isWrapper_not_terminator (s : string) :
  allChars isWrapper s = true -> avoids Js.lineTerminator s = true.
Proof.
  induction s as [|c s IH]; [reflexivity|]. simpl.
  intros H. apply andb_true_iff in H as [Hc H].
  unfold avoids in *. cbn [allChars]. rewrite (IH H), andb_true_r.
  revert Hc. destruct c as [[] [] [] [] [] [] [] []]; vm_compute; congruence.
Qed.

Lemma isNameChar_not_terminator (c : ascii) :
  isNameChar c = true -> negb (Js.lineTerminator c) = true.
Proof.
  destruct c as [[] [] [] [] [] [] [] []]; vm_compute; congruence.
Qed.

Lemma isName_line (n : string) :
  isName n = true -> avoids Js.lineTerminator n = true.
Proof.
  destruct n as [|c n]; [discriminate|]. simpl.
  intros H. apply andb_true_iff in H as [Hc Hn].
  unfold avoids. cbn [allChars].
  rewrite (isNameChar_not_terminator c (isLetter_isNameChar c Hc)). simpl.
  induction n as [|d n IH]; [reflexivity|].
  simpl in Hn. apply andb_true_iff in Hn as [Hd Hn].
  cbn [allChars]. rewrite (isNameChar_not_terminator d Hd). now apply IH.
Qed.

(** The mapped type of a reference to a GraphQL name is on one line. *)
Lemma mapGraphQLTypeToTSType_line (t : GraphQLType) :
  isName (namedTypeOf t) = true ->
  avoids Js.lineTerminator (mapGraphQLTypeToTSType (toString t)) = true.
Proof.
  intros Hn. destruct (toString_shape t) as [o [k [E [Ho Hk]]]].
  rewrite E, mapGraphQLTypeToTSType_shape by assumption.
  unfold avoids. rewrite !allChars_app.
  fold (avoids Js.lineTerminator o). fold (avoids Js.lineTerminator k).
  rewrite (isWrapper_not_terminator o Ho), (isWrapper_not_terminator k Hk).
  rewrite andb_true_r. simpl.
  fold (avoids Js.lineTerminator (mapGraphQLTypeToTSType (namedTypeOf t))).
  unfold mapGraphQLTypeToTSType, Js.replaceG.
  repeat (apply replaceLiteral_avoids; [reflexivity|]).
  now apply isName_line.
Qed.

(** The property line of a list type: the mapped inner type, as it is
    printed, followed by one array suffix. *)
Lemma propertyLine_ListOf (name : string) (t : GraphQLType) :
  isName (namedTypeOf t) = true ->
  let inner := mapGraphQLTypeToTSType (toString t) in
  propertyLine name (fieldTsType (mkField name (ListOf t)))
  = if Js.includes inner "!"
    then "  " ++ name ++ ": " ++ Js.removeBang inner ++ "[];"
    else "  " ++ name ++ "?: " ++ inner ++ "[];".
Proof.
  intros Hn inner. rewrite propertyLine_marker.
  unfold fieldTsType. cbn [fieldType].
  rewrite mapGraphQLTypeToTSType_ListOf. fold inner.
  replace ("[" ++ inner ++ "]") with ("[" ++ inner ++ "]" ++ EmptyString)
    by reflexivity.
  rewrite replaceAllBrackets_list;
    [|now apply mapGraphQLTypeToTSType_line|reflexivity|reflexivity].
  change ("[" ++ inner ++ "]" ++ EmptyString) with ("[" ++ inner ++ "]").
  rewrite !includes_app_char.
  change (Js.includes "[" "!") with false.
  change (Js.includes "]" "!") with false.
  rewrite orb_false_r. simpl orb.
  rewrite removeBang_app. change (Js.removeBang ("[]" ++ EmptyString)) with "[]".
  destruct (Js.includes inner "!"); now rewrite ?append_assoc.
Qed.

(** The same under a non-null wrapper: always required. *)
Lemma propertyLine_NonNull_ListOf (name : string) (t : GraphQLType) :
  isName (namedTypeOf t) = true ->
  let inner := mapGraphQLTypeToTSType (toString t) in
  propertyLine name (fieldTsType (mkField name (NonNull (ListOf t))))
  = "  " ++ name ++ ": " ++ Js.removeBang inner ++ "[];".
Proof.
  intros Hn inner. rewrite propertyLine_marker.
  unfold fieldTsType. cbn [fieldType].
  rewrite mapGraphQLTypeToTSType_NonNull, mapGraphQLTypeToTSType_ListOf.
  fold inner. rewrite !append_assoc.
  rewrite includes_app_char.
  replace (Js.includes (inner ++ "]" ++ "!") "!") with true
    by (rewrite includes_app_char; now rewrite orb_true_r).
  rewrite orb_true_r.
  rewrite replaceAllBrackets_list;
    [|now apply mapGraphQLTypeToTSType_line|reflexivity|reflexivity].
  rewrite !removeBang_app. simpl (Js.removeBang "[]").
  simpl (Js.removeBang "!"). now rewrite append_nil_r, ?append_assoc.
Qed.

Lemma mapped_name_no_marker (n : string) :
  isName n = true -> Js.includes (mapGraphQLTypeToTSType n) "!" = false.
Proof.
  intros Hn. apply (avoids_includes_char isWrapper); [reflexivity|].
  now apply mapGraphQLTypeToTSType_avoids, isName_avoids.
Qed.

(** A list of a named type, with or without markers, is rendered as the
    mapped name and one array suffix. *)
Lemma propertyLine_list_of_name (name n : string) :
  isName n = true ->
  let m := mapGraphQLTypeToTSType n in
  propertyLine name (fieldTsType (mkField name (ListOf (Named n))))
  = "  " ++ name ++ "?: " ++ m ++ "[];"
  /\ propertyLine name (fieldTsType (mkField name (ListOf (NonNull (Named n)))))
     = "  " ++ name ++ ": " ++ m ++ "[];"
  /\ propertyLine name (fieldTsType (mkField name (NonNull (ListOf (Named n)))))
     = "  " ++ name ++ ": " ++ m ++ "[];"
  /\ propertyLine name
       (fieldTsType (mkField name (NonNull (ListOf (NonNull (Named n))))))
     = "  " ++ name ++ ": " ++ m ++ "[];".
Proof.
  intros Hn m.
  assert (Hm : Js.includes m "!" = false) by now apply mapped_name_no_marker.
  assert (Hr : Js.removeBang m = m)
    by now apply removeBang_avoids, mapGraphQLTypeToTSType_avoids,
                 isName_avoids.
  repeat split.
  - rewrite propertyLine_ListOf by exact Hn. cbn [toString]. fold m.
    now rewrite Hm.
  - rewrite propertyLine_ListOf by exact Hn.
    rewrite mapGraphQLTypeToTSType_NonNull. cbn [toString]. fold m.
    rewrite includes_app_char, orb_true_r, removeBang_app, Hr.
    simpl (Js.removeBang "!"). now rewrite append_nil_r.
  - rewrite propertyLine_NonNull_ListOf by exact Hn. cbn [toString]. fold m.
    now rewrite Hr.
  - rewrite propertyLine_NonNull_ListOf by exact Hn.
    rewrite mapGraphQLTypeToTSType_NonNull. cbn [toString]. fold m.
    rewrite removeBang_app, Hr. simpl (Js.removeBang "!").
    now rewrite append_nil_r.
Qed.

(** A list of lists of a named type keeps the inner brackets. *)
Lemma propertyLine_list_of_list (name n : string) :
  isName n = true ->
  propertyLine name (fieldTsType (mkField name (ListOf (ListOf (Named n)))))
  = "  " ++ name ++ "?: [" ++ mapGraphQLTypeToTSType n ++ "][];".
Proof.
  intros Hn. rewrite propertyLine_ListOf by exact Hn.
  rewrite mapGraphQLTypeToTSType_ListOf. cbn [toString].
  rewrite !includes_app_char, (mapped_name_no_marker n Hn).
  simpl. now rewrite !append_assoc.
Qed.

(** A name without any scalar name inside is left as it is, and a scalar
    name of the table is mapped as by the scalar mapper. *)
Lemma replaceLiteral_absent (pat rep : string) (fuel : nat) (s : string) :
  Js.includes s pat = false -> Js.replaceLiteral fuel pat rep s = s.
Proof.
  revert s. induction fuel as [|fuel IH]; intros s H; [reflexivity|].
  destruct s as [|c s]; [reflexivity|].
  cbn [Js.replaceLiteral].
  rewrite (IH s (includes_cons_false _ _ _ H)).
  cbn [Js.includes] in H. apply orb_false_iff in H as [H _]. now rewrite H.
Qed.

Lemma mapGraphQLTypeToTSType_plain (n : string) :
  forallb (fun scalar => negb (Js.includes n scalar)) scalarTypeMap = true ->
  mapGraphQLTypeToTSType n = n.
Proof.
  unfold scalarTypeMap. cbn [forallb]. rewrite !andb_true_iff.
  rewrite !negb_true_iff. intros [H1 [H2 [H3 [H4 [H5 [H6 [H7 [H8 _]]]]]]]].
  unfold mapGraphQLTypeToTSType, Js.replaceG.
  rewrite (replaceLiteral_absent "String") by exact H1.
  rewrite (replaceLiteral_absent "Int") by exact H2.
  rewrite (replaceLiteral_absent "Float") by exact H3.
  rewrite (replaceLiteral_absent "Boolean") by exact H4.
  rewrite (replaceLiteral_absent "ID") by exact H5.
  rewrite (replaceLiteral_absent "NaiveDateTime") by exact H8.
  rewrite (replaceLiteral_absent "NaiveTime") by exact H6.
  now rewrite (replaceLiteral_absent "NaiveDate") by exact H7.
Qed.

Lemma mapGraphQLTypeToTSType_table (n : string) :
  Js.arrayIncludes scalarTypeMap n = true ->
  mapGraphQLTypeToTSType n = mapGraphQLScalarToTSType n.
Proof.
  unfold scalarTypeMap. cbn [Js.arrayIncludes].
  rewrite orb_false_r, !orb_true_iff, !String.eqb_eq.
  intros [<-|[<-|[<-|[<-|[<-|[<-|[<-|<-]]]]]]]; reflexivity.
Qed.

End Rendering.

(** *** Claims *)

(** The enum-first order does its part.  In the two loops of [main],
    every enum type of the schema that is neither a meta-type nor ignored
    is in [enumTypes] when the second loop runs, and a field of an object
    type whose base name is such an enum never adds a type-only import of
    it.  When the guard of line 85 lets the field through, the value
    import from the [enums] sub-path is part of the file written for the
    object type. *)
Lemma enum_field_value_import
    (ignore : list string) (typeMap : TypeMap) (key name : string)
    (pre post : list GraphQLField) (field : GraphQLField)
    (values : list GraphQLEnumValue) :
  let type := GraphQLObjectType name (pre ++ field :: post) in
  let tsType := fieldTsType field in
  let cleanedType := cleanedTypeOf tsType in
  let registry := enumTypes (main ignore typeMap) in
  let before := objectImports registry type EmptyString pre in
  In (key, type) typeMap ->
  Js.startsWith key "__" = false ->
  Js.arrayIncludes ignore key = false ->
  In (cleanedType, GraphQLEnumType cleanedType values) typeMap ->
  Js.startsWith cleanedType "__" = false ->
  Js.arrayIncludes ignore cleanedType = false ->
  Js.arrayIncludes registry cleanedType = true
  /\ (forall imports,
        emittedImport registry type imports tsType
        <> Some (ImportType cleanedType))
  /\ (Js.includes tsType "UTCDate" = false ->
      Js.arrayIncludes ignoreFields cleanedType = false ->
      Js.includes before cleanedType = false ->
      exists after,
        In (mkFile false (lowercaseFirstLetter name ++ ".ts")
              (before ++ valueImport cleanedType ++ after))
           (written (main ignore typeMap))).
Proof.
  intros type tsType cleanedType registry before
         Hin Hmeta Hign Henum Hemeta Heign.
  assert (Hreg : Js.arrayIncludes registry cleanedType = true).
  { unfold registry. rewrite main_enumTypes.
    now apply generateEnums_registers with (values := values). }
  split; [exact Hreg|]. split.
  - intros imports. now apply emittedImport_registered.
  - intros Hd Hp Hc.
    pose proof (generateRest_writes_object ignore typeMap
                  (generateEnums ignore typeMap (mkWorld [] []))
                  key name (pre ++ field :: post) Hin Hmeta Hign) as Hw.
    fold (main ignore typeMap) in Hw.
    rewrite <- main_enumTypes in Hw. fold registry in Hw.
    cbn [generateTypeScriptForType] in Hw. fold type in Hw.
    rewrite objectImports_app in Hw. fold before in Hw.
    unfold objectImports at 1 in Hw. cbn [fold_left] in Hw.
    fold (objectImports registry type) in Hw. fold tsType in Hw.
    rewrite (updateImports_registered registry type before tsType) in Hw
      by (reflexivity || assumption).
    fold cleanedType in Hw.
    destruct (objectImports_extends registry type post
                (before ++ valueImport cleanedType)) as [rest Hrest].
    unfold objectImports in Hrest.
    rewrite Hrest in Hw. rewrite !append_assoc in Hw.
    eexists. exact Hw.
Qed.

Lemma enum_field_value_import_example :
  exists after,
    In (mkFile false "item.ts"
          (valueImport "Color" ++ after))
       (written (main [] itemSchema)).
Proof.
  destruct (enum_field_value_import [] itemSchema "Item" "Item"
              [mkField "id" (NonNull (Named "ID"))]
              [mkField "name" (NonNull (Named "String"))]
              (mkField "color" (Named "Color")) colorValues)
    as [_ [_ H]].
  - right. right. left. reflexivity.
  - reflexivity.
  - reflexivity.
  - right. left. reflexivity.
  - reflexivity.
  - reflexivity.
  - apply H; reflexivity.
Defined.

(** C1, at the failing input: the object [Item] with the fields
    [kind: ColorType] and [color: Color].  The enum [Color] is in the
    schema and in [enumTypes], the base name of [color] is [Color], and
    the guard of line 85 finds [Color] inside the import line of
    [ColorType]: the field adds no import, the file written for [Item]
    uses [Color] without importing it, and no written file holds a value
    import of [Color]. *)
Theorem C1_enum_import_lost_to_substring_guard :
  In ("Color", GraphQLEnumType "Color" colorValues) colorSchema
  /\ cleanedTypeOf (fieldTsType colorField) = "Color"
  /\ enumTypes (main [] colorSchema) = ["Color"]
  /\ emittedImport ["Color"] (GraphQLObjectType "Item" [kindField; colorField])
       (typeImport "ColorType") (fieldTsType colorField) = None
  /\ In (mkFile false "item.ts"
           (typeImport "ColorType" ++ Js.nl ++ "export interface Item {"
              ++ Js.nl ++ "  kind?: ColorType;" ++ Js.nl
              ++ "  color?: Color;" ++ Js.nl ++ "}"))
        (written (main [] colorSchema))
  /\ forallb (fun f => negb (Js.includes (content f) "import {Color}"))
             (written (main [] colorSchema)) = true.
Proof.
  split; [left; reflexivity|].
  split; [reflexivity|]. split; [reflexivity|]. split; [reflexivity|].
  split; [right; right; left; reflexivity | reflexivity].
Qed.

(** C2, at the failing input: a nullable list of non-null elements,
    printed without a trailing marker, is rendered as a required
    property, because line 92 looks for the marker anywhere in the type. *)
Theorem C2_inner_marker_renders_required :
  toString (ListOf (NonNull (Named "String"))) = "[String!]"
  /\ propertyLine "tags"
       (fieldTsType (mkField "tags" (ListOf (NonNull (Named "String")))))
     = "  tags: string[];"
  /\ propertyLine "tags"
       (fieldTsType (mkField "tags" (ListOf (Named "String"))))
     = "  tags?: string[];".
Proof. repeat split; reflexivity. Qed.

(** C3, at the failing input: a list of lists keeps its inner brackets,
    in the property line and in the base name used for the import. *)
Theorem C3_nested_list_keeps_brackets :
  toString (ListOf (ListOf (Named "String"))) = "[[String]]"
  /\ propertyLine "matrix"
       (fieldTsType (mkField "matrix" (ListOf (ListOf (Named "String")))))
     = "  matrix?: [string][];"
  /\ cleanedTypeOf
       (fieldTsType (mkField "matrix" (ListOf (ListOf (Named "String")))))
     = "[string]"
  /\ updateImports [] (GraphQLObjectType "Grid" []) EmptyString
       (fieldTsType (mkField "matrix" (ListOf (ListOf (Named "String")))))
     = typeImport "[string]".
Proof. repeat split; reflexivity. Qed.

(** C4, at the failing inputs: a scalar name is replaced wherever it
    occurs, also inside a longer name that is not in the scalar table. *)
Theorem C4_scalar_name_inside_name :
  Js.arrayIncludes scalarTypeMap "Interval" = false
  /\ Js.arrayIncludes scalarTypeMap "VideoID" = false
  /\ mapGraphQLTypeToTSType (toString (Named "Interval")) = "numbererval"
  /\ mapGraphQLTypeToTSType (toString (Named "VideoID")) = "Videostring".
Proof. repeat split; reflexivity. Qed.

(** C5.  The scalar mapper is the fixed table, and every name outside the
    table is mapped to [any]. *)
Theorem C5_scalar_mapper_table :
  mapGraphQLScalarToTSType "String" = "string"
  /\ mapGraphQLScalarToTSType "Int" = "number"
  /\ mapGraphQLScalarToTSType "Float" = "number"
  /\ mapGraphQLScalarToTSType "Boolean" = "boolean"
  /\ mapGraphQLScalarToTSType "ID" = "string"
  /\ mapGraphQLScalarToTSType "NaiveDate" = "UTCDate"
  /\ mapGraphQLScalarToTSType "NaiveTime" = "UTCDate"
  /\ mapGraphQLScalarToTSType "NaiveDateTime" = "UTCDate"
  /\ forall scalarName,
       Js.arrayIncludes scalarTypeMap scalarName = false ->
       mapGraphQLScalarToTSType scalarName = "any".
Proof.
  repeat (split; [reflexivity|]).
  intros n H. unfold scalarTypeMap in H. cbn [Js.arrayIncludes] in H.
  repeat (apply orb_false_iff in H as [?E H]).
  unfold mapGraphQLScalarToTSType.
  repeat match goal with
         | E : String.eqb _ n = false |- _ =>
             rewrite String.eqb_sym in E; rewrite E; clear E
         end.
  reflexivity.
Qed.

Lemma C5_scalar_mapper_table_witness :
  mapGraphQLScalarToTSType "Money" = "any".
Proof.
  destruct C5_scalar_mapper_table as [_ [_ [_ [_ [_ [_ [_ [_ H]]]]]]]].
  apply H. reflexivity.
Defined.

(** C6.  For an object declaration whose fields refer to names of the
    GraphQL grammar: the import text is the sequence of the lines added by
    the fields; each base name adds at most one line; the date line is
    added at most once, and exactly once when the mapped type of some
    field holds [UTCDate]. *)
Theorem C6_import_lines_unique
    (registry : list string) (name : string) (fields : list GraphQLField) :
  forallb wellNamed fields = true ->
  let type := GraphQLObjectType name fields in
  let tr := importTrace registry type EmptyString fields in
  generateTypeScriptForType registry type
  = concatLines (map snd tr) ++ Js.nl ++ "export interface " ++ name ++ " {"
      ++ Js.nl ++ Js.join Js.nl (objectFieldLines fields) ++ Js.nl ++ "}"
  /\ (forall cleanedType, baseCount cleanedType tr <= 1)
  /\ count_date (map snd tr) <= 1
  /\ (existsb isDateField fields = true -> count_date (map snd tr) = 1).
Proof.
  intros Hn type tr. repeat split.
  - unfold type at 1. unfold generateTypeScriptForType. fold type.
    rewrite objectImports_trace. reflexivity.
  - intros c. now apply baseCount_bound.
  - destruct (existsb isDateField fields) eqn:Hex.
    + unfold tr. rewrite date_once; auto.
    + unfold tr. rewrite date_none; auto.
  - intros Hex. now apply date_once.
Qed.

Lemma C6_import_lines_unique_witness :
  let type := GraphQLObjectType "Event" eventFields in
  let tr := importTrace ["Color"] type EmptyString eventFields in
  tr = [("UTCDate", ImportDate); ("User", ImportType "User")]
  /\ baseCount "User" tr <= 1
  /\ count_date (map snd tr) = 1.
Proof.
  destruct (C6_import_lines_unique ["Color"] "Event" eventFields)
    as [_ [Hbase [_ Hdate]]].
  - reflexivity.
  - split; [reflexivity|]. split.
    + apply Hbase.
    + apply Hdate. reflexivity.
Defined.

(** C7, as amended.  A field whose base name is [string], [number] or
    [boolean] adds no import line. *)
Theorem C7_primitive_field_no_import
    (registry : list string) (type : GraphQLNamedType) (imports : string)
    (field : GraphQLField) :
  Js.arrayIncludes ignoreFields (cleanedTypeOf (fieldTsType field)) = true ->
  updateImports registry type imports (fieldTsType field) = imports
  /\ emittedImport registry type imports (fieldTsType field) = None.
Proof.
  intros H. split.
  - now apply updateImports_primitive.
  - now apply emittedImport_primitive.
Qed.

Lemma C7_primitive_field_no_import_witness :
  updateImports [] treeNode (typeImport "User")
    (fieldTsType (mkField "tags" (NonNull (ListOf (NonNull (Named "String"))))))
  = typeImport "User".
Proof.
  apply (C7_primitive_field_no_import [] treeNode (typeImport "User")
           (mkField "tags" (NonNull (ListOf (NonNull (Named "String")))))).
  reflexivity.
Defined.

(** C7, as stated, fails on a self-reference: the base name of the field
    [parent] is the name of the declared type, and an import line of that
    type is added. *)
Lemma C7_counterexample :
  cleanedTypeOf (fieldTsType parentField) = nameOf treeNode
  /\ updateImports [] treeNode EmptyString (fieldTsType parentField)
     = typeImport "Node"
  /\ generateTypeScriptForType [] treeNode
     = typeImport "Node" ++ Js.nl ++ "export interface Node {" ++ Js.nl
         ++ "  parent?: Node;" ++ Js.nl ++ "}".
Proof. repeat split; reflexivity. Qed.

(** C8, at the failing input: the fields of an interface keep the
    brackets and the markers of the printed type. *)
Theorem C8_interface_keeps_markers :
  generateTypeScriptForType [] entityInterface
  = "export interface Entity {" ++ Js.nl
      ++ "  id: string!;" ++ Js.nl
      ++ "  tags: [string!]!;" ++ Js.nl ++ "}"
  /\ objectFieldLines
       [mkField "id" (NonNull (Named "ID"));
        mkField "tags" (NonNull (ListOf (NonNull (Named "String"))))]
     = ["  id: string;"; "  tags: string[];"].
Proof. split; reflexivity. Qed.

(** C9.  For a type of none of the five handled kinds the generator
    returns the empty text, both loops leave the state as it is, and the
    run is the run without that type. *)
Theorem C9_unhandled_kind_skipped
    (registry ignore : list string) (type : GraphQLNamedType) (key : string)
    (before after : TypeMap) :
  isObjectType type = false -> isEnumType type = false ->
  isScalarType type = false -> isInterfaceType type = false ->
  isUnionType type = false ->
  generateTypeScriptForType registry type = EmptyString
  /\ (forall w, enumIteration ignore w (key, type) = w)
  /\ (forall w, restIteration ignore w (key, type) = w)
  /\ main ignore (before ++ (key, type) :: after)%list
     = main ignore (before ++ after)%list.
Proof.
  intros Ho He Hs Hi Hu.
  destruct (unhandled_is_input type Ho He Hs Hi Hu) as [name [fields ->]].
  split; [reflexivity|].
  split; [intros w; apply enumIteration_input|].
  split; [intros w; apply restIteration_input|].
  unfold main. now rewrite generateEnums_skip, generateRest_skip.
Qed.

Lemma C9_unhandled_kind_skipped_witness :
  main [] (itemSchema ++ [("Filter", GraphQLInputObjectType "Filter" [])])%list
  = main [] itemSchema.
Proof.
  destruct (C9_unhandled_kind_skipped [] []
              (GraphQLInputObjectType "Filter" []) "Filter" itemSchema []
              eq_refl eq_refl eq_refl eq_refl eq_refl)
    as [_ [_ [_ H]]].
  rewrite app_nil_r in H. exact H.
Defined.

(** C10.  A field whose base name occurs in a line added by an earlier
    field of the declaration adds no line of its own. *)
Theorem C10_substring_deduplication
    (registry : list string) (type : GraphQLNamedType)
    (pre : list GraphQLField) (field : GraphQLField)
    (earlier : string * ImportLine) :
  In earlier (importTrace registry type EmptyString pre) ->
  Js.includes (renderImportLine (snd earlier))
    (cleanedTypeOf (fieldTsType field)) = true ->
  let imports := objectImports registry type EmptyString pre in
  updateImports registry type imports (fieldTsType field) = imports
  /\ emittedImport registry type imports (fieldTsType field) = None.
Proof.
  intros Hin Hsub imports.
  assert (Hc : Js.includes imports (cleanedTypeOf (fieldTsType field)) = true).
  { unfold imports. rewrite objectImports_trace. simpl.
    apply concatLines_includes with (l := snd earlier); [|assumption].
    now apply in_map. }
  split.
  - now apply updateImports_contained.
  - now apply emittedImport_contained.
Qed.

Lemma C10_substring_deduplication_witness :
  let type := GraphQLObjectType "Item" [kindField; colorField] in
  cleanedTypeOf (fieldTsType colorField) <> cleanedTypeOf (fieldTsType kindField)
  /\ updateImports ["Color"] type (typeImport "ColorType")
       (fieldTsType colorField)
     = typeImport "ColorType".
Proof.
  split; [discriminate|].
  apply (C10_substring_deduplication ["Color"]
           (GraphQLObjectType "Item" [kindField; colorField])
           [kindField] colorField ("ColorType", ImportType "ColorType")).
  - left. reflexivity.
  - reflexivity.
Defined.

(** ** Further properties *)

(** *** The two loops as filters *)

Section LoopsAsFilters.

Variable ignoreList : list string.

Lemma world_eta (w : World) : mkWorld (enumTypes w) (written w) = w.
Proof. now destruct w. Qed.

Lemma generate_truthy (registry : list string) (t : GraphQLNamedType) :
  Js.truthy (generateTypeScriptForType registry t)
  = negb (isInputObjectType t).
Proof.
  destruct t; try reflexivity.
  cbn [generateTypeScriptForType isInputObjectType negb]. unfold Js.nl.
  apply truthy_app_r.
Qed.

Lemma generate_enum_registry (registry : list string) (t : GraphQLNamedType) :
  isEnumType t = true ->
  generateTypeScriptForType registry t = generateTypeScriptForType [] t.
Proof. destruct t; try discriminate. reflexivity. Qed.

Lemma enumIteration_kept (w : World) (e : string * GraphQLNamedType) :
  enumIteration ignoreList w e
  = if keptEnum ignoreList e
    then mkWorld (enumTypes w ++ [nameOf (snd e)]) (written w ++ [enumFile e])
    else w.
Proof.
  destruct e as [k t].
  unfold enumIteration, keptEnum, keptKey, enumFile. cbn [fst snd].
  destruct (Js.startsWith k "__"); [reflexivity|].
  destruct (Js.arrayIncludes ignoreList k); [reflexivity|].
  cbn [negb andb].
  destruct (isEnumType t) eqn:He.
  - replace (isScalarType t) with false by (destruct t; try discriminate; reflexivity).
    cbn [andb negb]. rewrite generate_truthy.
    replace (isInputObjectType t) with false
      by (destruct t; try discriminate; reflexivity).
    cbn [negb]. now rewrite (generate_enum_registry _ t He).
  - cbn [negb]. now destruct (isScalarType t && _).
Qed.

Lemma restIteration_kept (w : World) (e : string * GraphQLNamedType) :
  restIteration ignoreList w e
  = if keptRest ignoreList e
    then mkWorld (enumTypes w) (written w ++ [restFile (enumTypes w) e])
    else w.
Proof.
  destruct e as [k t].
  unfold restIteration, keptRest, keptKey, restFile, builtinScalar.
  cbn [fst snd].
  destruct (Js.startsWith k "__"); [reflexivity|].
  destruct (Js.arrayIncludes ignoreList k); [reflexivity|].
  cbn [negb andb].
  destruct (isScalarType t && Js.arrayIncludes scalarTypeMap (nameOf t));
    [reflexivity|].
  cbn [negb andb].
  destruct (isEnumType t); [reflexivity|].
  cbn [negb andb]. rewrite generate_truthy.
  now destruct (isInputObjectType t).
Qed.

Lemma generateEnums_filter (typeMap : TypeMap) (w : World) :
  generateEnums ignoreList typeMap w
  = mkWorld
      (enumTypes w
         ++ map (fun e => nameOf (snd e)) (filter (keptEnum ignoreList) typeMap))
      (written w ++ map enumFile (filter (keptEnum ignoreList) typeMap)).
Proof.
  revert w. induction typeMap as [|e tm IH]; intros w.
  - simpl. now rewrite !app_nil_r, world_eta.
  - unfold generateEnums in *. cbn [fold_left filter].
    rewrite IH, enumIteration_kept.
    destruct (keptEnum ignoreList e); [|reflexivity].
    cbn [enumTypes written map]. now rewrite <- !app_assoc.
Qed.

Lemma generateRest_filter (typeMap : TypeMap) (w : World) :
  generateRest ignoreList typeMap w
  = mkWorld (enumTypes w)
      (written w
         ++ map (restFile (enumTypes w)) (filter (keptRest ignoreList) typeMap)).
Proof.
  revert w. induction typeMap as [|e tm IH]; intros w.
  - simpl. now rewrite !app_nil_r, world_eta.
  - unfold generateRest in *. cbn [fold_left filter].
    rewrite IH, restIteration_kept.
    destruct (keptRest ignoreList e); [|reflexivity].
    cbn [enumTypes written map]. now rewrite <- !app_assoc.
Qed.

End LoopsAsFilters.

Lemma main_enumTypes_filter (ignoreList : list string) (typeMap : TypeMap) :
  enumTypes (main ignoreList typeMap)
  = map (fun e => nameOf (snd e)) (filter (keptEnum ignoreList) typeMap).
Proof.
  unfold main. now rewrite generateRest_filter, generateEnums_filter.
Qed.

Lemma main_written_filter (ignoreList : list string) (typeMap : TypeMap) :
  written (main ignoreList typeMap)
  = (map enumFile (filter (keptEnum ignoreList) typeMap)
     ++ map (restFile (enumTypes (main ignoreList typeMap)))
          (filter (keptRest ignoreList) typeMap))%list.
Proof.
  rewrite main_enumTypes_filter.
  unfold main. now rewrite generateRest_filter, generateEnums_filter.
Qed.

(** X1.  After the two loops, [enumTypes] holds the names of the enum
    types whose key is neither a meta-type name nor ignored, in the order
    of the type map, and nothing else. *)
Theorem registry_is_kept_enums (ignoreList : list string) (typeMap : TypeMap) :
  enumTypes (main ignoreList typeMap)
  = map (fun e => nameOf (snd e)) (filter (keptEnum ignoreList) typeMap).
Proof. apply main_enumTypes_filter. Qed.

(** X2.  The files of a run: first one file below [enums] for each kept
    enum type, then one file for each other kept type that is neither a
    built-in scalar nor an input object type, each group in the order of
    the type map; the second group is generated with the complete
    [enumTypes]. *)
Theorem written_files_of_main (ignoreList : list string) (typeMap : TypeMap) :
  written (main ignoreList typeMap)
  = (map enumFile (filter (keptEnum ignoreList) typeMap)
     ++ map (restFile (enumTypes (main ignoreList typeMap)))
          (filter (keptRest ignoreList) typeMap))%list.
Proof. apply main_written_filter. Qed.

(** X3.  A type whose key starts with two underscores or is in the ignore
    list leaves no trace: the run is the run without it. *)
Theorem skipped_key_leaves_no_trace
    (ignoreList : list string) (key : string) (type : GraphQLNamedType)
    (before after : TypeMap) :
  Js.startsWith key "__" = true \/ Js.arrayIncludes ignoreList key = true ->
  main ignoreList (before ++ (key, type) :: after)%list
  = main ignoreList (before ++ after)%list.
Proof.
  intros H.
  assert (Hk : keptKey ignoreList key = false).
  { unfold keptKey. destruct H as [-> | ->]; [reflexivity|].
    now rewrite andb_false_r. }
  unfold main.
  rewrite !generateRest_filter, !generateEnums_filter, !filter_app.
  cbn [filter]. unfold keptEnum, keptRest. cbn [fst snd]. rewrite Hk.
  reflexivity.
Qed.

Lemma skipped_key_leaves_no_trace_witness :
  main ["QueryRoot"] mixedSchema
  = main ["QueryRoot"]
      (filter (fun e => negb (String.eqb (fst e) "QueryRoot")) mixedSchema).
Proof.
  apply (skipped_key_leaves_no_trace ["QueryRoot"] "QueryRoot"
           (GraphQLObjectType "QueryRoot"
              [mkField "items" (ListOf (Named "Item"))])
           [("__Schema", GraphQLObjectType "__Schema" []);
            ("String", GraphQLScalarType "String");
            ("DateTime", GraphQLScalarType "DateTime")]).
  right. reflexivity.
Defined.

(** X4.  A scalar type with one of the eight names of [scalarTypeMap] is
    skipped by both loops: the run is the run without it. *)
Theorem builtin_scalar_leaves_no_trace
    (ignoreList : list string) (key name : string) (before after : TypeMap) :
  Js.arrayIncludes scalarTypeMap name = true ->
  main ignoreList (before ++ (key, GraphQLScalarType name) :: after)%list
  = main ignoreList (before ++ after)%list.
Proof.
  intros H. unfold main.
  rewrite !generateRest_filter, !generateEnums_filter, !filter_app.
  cbn [filter]. unfold keptEnum, keptRest, builtinScalar.
  cbn [fst snd isEnumType isScalarType nameOf]. rewrite H.
  now rewrite !andb_false_r.
Qed.

Lemma builtin_scalar_leaves_no_trace_witness :
  main [] (("Int", GraphQLScalarType "Int") :: itemSchema) = main [] itemSchema.
Proof.
  apply (builtin_scalar_leaves_no_trace [] "Int" "Int" [] itemSchema).
  reflexivity.
Defined.

Lemma mapGraphQLScalarToTSType_other (n : string) :
  Js.arrayIncludes scalarTypeMap n = false ->
  mapGraphQLScalarToTSType n = "any".
Proof.
  unfold scalarTypeMap. cbn [Js.arrayIncludes]. intros H.
  repeat (apply orb_false_iff in H as [?E H]).
  unfold mapGraphQLScalarToTSType.
  repeat match goal with
         | E : String.eqb _ n = false |- _ =>
             rewrite String.eqb_sym in E; rewrite E; clear E
         end.
  reflexivity.
Qed.

(** X5.  Whatever its name, a scalar type either is skipped by the second
    loop or gets the alias to [any]: the table of the scalar mapper is
    never reached from [main]. *)
Theorem scalar_file_is_any_alias
    (ignoreList : list string) (w : World) (key name : string) :
  restIteration ignoreList w (key, GraphQLScalarType name) = w
  \/ restIteration ignoreList w (key, GraphQLScalarType name)
     = mkWorld (enumTypes w)
         (written w
            ++ [mkFile false (lowercaseFirstLetter name ++ ".ts")
                  ("export type " ++ name ++ " = any;")]).
Proof.
  rewrite restIteration_kept.
  destruct (keptRest ignoreList (key, GraphQLScalarType name)) eqn:K;
    [right | now left].
  unfold keptRest, builtinScalar in K.
  cbn [fst snd isScalarType nameOf andb] in K.
  destruct (Js.arrayIncludes scalarTypeMap name) eqn:Hn;
    [now rewrite !andb_false_r in K|].
  unfold restFile. cbn [snd nameOf generateTypeScriptForType].
  now rewrite (mapGraphQLScalarToTSType_other name Hn).
Qed.

(** *** Imports and written files *)

Lemma arrayIncludes_In (xs : list string) (x : string) :
  Js.arrayIncludes xs x = true <-> In x xs.
Proof.
  induction xs as [|y xs IH]; simpl; [split; [discriminate | contradiction]|].
  rewrite orb_true_iff, String.eqb_eq, IH. reflexivity.
Qed.

Lemma emitted_value_registered (registry : list string)
    (type : GraphQLNamedType) (imports tsType c : string) :
  emittedImport registry type imports tsType = Some (ImportValue c) ->
  Js.arrayIncludes registry c = true.
Proof.
  unfold emittedImport.
  destruct (Js.includes tsType "UTCDate").
  - destruct (negb _); discriminate.
  - destruct (negb _); [|discriminate]. destruct (negb _); [|discriminate].
    destruct (Js.arrayIncludes registry (cleanedTypeOf tsType)) eqn:E;
      intros [= <-]. exact E.
Qed.

Lemma importTrace_value_registered (registry : list string)
    (type : GraphQLNamedType) (fields : list GraphQLField)
    (imports base c : string) :
  In (base, ImportValue c) (importTrace registry type imports fields) ->
  Js.arrayIncludes registry c = true.
Proof.
  revert imports. induction fields as [|f fs IH]; intros imports;
    [contradiction|].
  rewrite importTrace_cons.
  destruct (emittedImport registry type imports (fieldTsType f)) as [l|] eqn:E.
  - intros [H|H]; [|now apply IH in H].
    injection H as _ ->. now apply emitted_value_registered in E.
  - apply IH.
Qed.

(** X6.  A value import never dangles: whenever a declaration generated
    with the [enumTypes] of a run gets a value import of a name, the run
    has written the file of that name below [enums]. *)
Theorem value_import_has_file
    (ignoreList : list string) (typeMap : TypeMap) (type : GraphQLNamedType)
    (fields : list GraphQLField) (imports base c : string) :
  In (base, ImportValue c)
     (importTrace (enumTypes (main ignoreList typeMap)) type imports fields) ->
  exists text,
    In (mkFile true (lowercaseFirstLetter c ++ ".ts") text)
       (written (main ignoreList typeMap)).
Proof.
  intros H. apply importTrace_value_registered in H.
  apply arrayIncludes_In in H. rewrite main_enumTypes_filter in H.
  apply in_map_iff in H as [e [<- He]].
  exists (generateTypeScriptForType [] (snd e)).
  rewrite main_written_filter. apply in_or_app. left.
  change (mkFile true (lowercaseFirstLetter (nameOf (snd e)) ++ ".ts")
            (generateTypeScriptForType [] (snd e))) with (enumFile e).
  now apply in_map.
Qed.

Lemma value_import_has_file_witness :
  exists text, In (mkFile true "color.ts" text) (written (main [] itemSchema)).
Proof.
  apply (value_import_has_file [] itemSchema
           (GraphQLObjectType "Item" [colorField]) [colorField]
           EmptyString "Color" "Color").
  left. reflexivity.
Defined.

(** *** Nothing of a declaration is dropped *)

Lemma join_includes (sep x : string) (xs : list string) :
  In x xs -> Js.includes (Js.join sep xs) x = true.
Proof.
  induction xs as [|y ys IH]; [contradiction|].
  intros [->|H].
  - destruct ys; cbn [Js.join]; [apply includes_refl|].
    apply includes_app_l, includes_refl.
  - destruct ys as [|z zs]; [contradiction|].
    cbn [Js.join]. apply includes_app_r, includes_app_r. now apply IH.
Qed.

(** X7.  The declaration of an enum type holds the member line of each of
    its values, and the alias of a union type holds the name of each of
    its member types. *)
Theorem enum_and_union_members_present
    (registry : list string) (name : string) :
  (forall values value,
      In value values ->
      Js.includes
        (generateTypeScriptForType registry (GraphQLEnumType name values))
        (enumMemberLine value) = true)
  /\ (forall types member,
        In member types ->
        Js.includes
          (generateTypeScriptForType registry (GraphQLUnionType name types))
          member = true).
Proof.
  split.
  - intros values value H. cbn [generateTypeScriptForType].
    do 4 apply includes_app_r. apply includes_app_l.
    apply join_includes. unfold enumMembers.
    change (enumMemberLine value)
      with ((fun value => "  " ++ valueName value ++ " = " ++ Js.dquote
                            ++ valueValue value ++ Js.dquote) value).
    now apply in_map.
  - intros types member H. cbn [generateTypeScriptForType].
    do 3 apply includes_app_r. apply includes_app_l.
    now apply join_includes.
Qed.

Lemma enum_and_union_members_present_witness :
  Js.includes
    (generateTypeScriptForType [] (GraphQLEnumType "Color" colorValues))
    (enumMemberLine (mkEnumValue "GREEN" "GREEN")) = true.
Proof.
  destruct (enum_and_union_members_present [] "Color") as [H _].
  apply H. right. left. reflexivity.
Defined.

(** X8.  The declaration of an object type holds the property line of
    each of its fields, and that of an interface type the line of each of
    its fields. *)
Theorem field_lines_present
    (registry : list string) (name : string) (fields : list GraphQLField)
    (field : GraphQLField) :
  In field fields ->
  Js.includes
    (generateTypeScriptForType registry (GraphQLObjectType name fields))
    (propertyLine (fieldName field) (fieldTsType field)) = true
  /\ Js.includes
       (generateTypeScriptForType registry (GraphQLInterfaceType name fields))
       (interfaceLine field) = true.
Proof.
  intros H. split.
  - cbn [generateTypeScriptForType].
    do 6 apply includes_app_r. apply includes_app_l.
    apply join_includes. unfold objectFieldLines.
    change (propertyLine (fieldName field) (fieldTsType field))
      with ((fun field => propertyLine (fieldName field) (fieldTsType field))
              field).
    now apply in_map.
  - cbn [generateTypeScriptForType].
    do 4 apply includes_app_r. apply includes_app_l.
    apply join_includes. unfold interfaceFieldLines.
    change (interfaceLine field)
      with ((fun field => "  " ++ fieldName field ++ ": "
                            ++ fieldTsType field ++ ";") field).
    now apply in_map.
Qed.

Lemma field_lines_present_witness :
  Js.includes
    (generateTypeScriptForType [] (GraphQLObjectType "Event" eventFields))
    "  end?: UTCDate;" = true.
Proof.
  destruct (field_lines_present [] "Event" eventFields
              (mkField "end" (Named "NaiveDate"))) as [H _].
  - right. right. left. reflexivity.
  - exact H.
Defined.

(** *** Markers in property lines *)

Lemma removeBang_no_marker (s : string) :
  Js.includes (Js.removeBang s) "!" = false.
Proof.
  induction s as [|c s IH]; [reflexivity|]. simpl.
  destruct (Ascii.eqb_spec c "!"%char) as [->|Hc]; [exact IH|].
  cbn [Js.includes Js.startsWith]. rewrite IH, andb_true_r, orb_false_r.
  destruct (Ascii.eqb_spec "!"%char c) as [<-|_]; [contradiction | reflexivity].
Qed.

(** X9.  The property line of an object field holds no non-null marker,
    whatever the type, as long as the field name holds none. *)
Theorem propertyLine_has_no_marker (fieldName tsType : string) :
  Js.includes fieldName "!" = false ->
  Js.includes (propertyLine fieldName tsType) "!" = false.
Proof.
  intros Hn. unfold propertyLine.
  destruct (Js.includes (Js.replaceAllBrackets "[]" tsType) "!") eqn:E.
  - rewrite !includes_app_char, Hn, removeBang_no_marker. reflexivity.
  - rewrite !includes_app_char, Hn, E. reflexivity.
Qed.

Lemma propertyLine_has_no_marker_witness :
  Js.includes
    (propertyLine "tags"
       (fieldTsType
          (mkField "tags" (NonNull (ListOf (NonNull (Named "String")))))))
    "!" = false.
Proof. apply propertyLine_has_no_marker. reflexivity. Defined.

(** *** No name is imported twice *)

Lemma importTrace_names_fresh (registry : list string)
    (type : GraphQLNamedType) (fields : list GraphQLField) (imports : string) :
  NoDup (map (fun e => importedName (snd e))
             (importTrace registry type imports fields))
  /\ forall e, In e (importTrace registry type imports fields) ->
               Js.includes imports (importedName (snd e)) = false.
Proof.
  revert imports. induction fields as [|f fs IH]; intros imports.
  - split; [constructor | contradiction].
  - rewrite importTrace_cons.
    destruct (emittedImport registry type imports (fieldTsType f))
      as [l|] eqn:E; [|apply IH].
    destruct (IH (imports ++ renderImportLine l)) as [Hnd Hfresh].
    assert (Hl : Js.includes imports (importedName l) = false).
    { destruct (isImportDate l) eqn:Hd.
      - destruct l; try discriminate. now apply emitted_date in E as [_ E].
      - destruct (emitted_named _ _ _ _ _ E Hd) as [_ [Hi ->]]. exact Hi. }
    split.
    + cbn [map snd]. constructor; [|exact Hnd].
      intros Hin. apply in_map_iff in Hin as [e [He Hin]].
      apply Hfresh in Hin. rewrite He in Hin.
      rewrite includes_app_r in Hin; [discriminate|].
      apply renderImportLine_name.
    + intros e [<-|Hin]; [exact Hl|].
      apply Hfresh in Hin.
      destruct (Js.includes imports (importedName (snd e))) eqn:Hi;
        [|reflexivity].
      now rewrite (includes_app_l _ _ _ Hi) in Hin.
Qed.

(** X10.  In the import lines of one declaration no name occurs twice
    between the braces, for any fields and any [enumTypes]; and no line
    imports a name the import text held before. *)
Theorem imported_names_distinct (registry : list string)
    (type : GraphQLNamedType) (fields : list GraphQLField) (imports : string) :
  NoDup (map (fun e => importedName (snd e))
             (importTrace registry type imports fields))
  /\ forall e, In e (importTrace registry type imports fields) ->
               Js.includes imports (importedName (snd e)) = false.
Proof. apply importTrace_names_fresh. Qed.

Lemma imported_names_distinct_witness :
  Js.includes (typeImport "Venue") "User" = false.
Proof.
  destruct (imported_names_distinct ["Color"]
              (GraphQLObjectType "Event" eventFields) eventFields
              (typeImport "Venue"))
    as [_ H].
  apply (H ("User", ImportType "User")).
  right. left. reflexivity.
Defined.

(** *** The object branch, read structurally *)

Section Structural.

Lemma bang_wrapper (s : string) :
  allChars isBang s = true -> allChars isWrapper s = true.
Proof.
  induction s as [|c s IH]; [reflexivity|]. simpl.
  intros H. apply andb_true_iff in H as [Hc H]. rewrite (IH H), andb_true_r.
  unfold isBang in Hc. unfold isWrapper. rewrite Hc. apply orb_true_r.
Qed.

Lemma bang_removeBang (s : string) :
  allChars isBang s = true -> Js.removeBang s = EmptyString.
Proof.
  induction s as [|c s IH]; [reflexivity|]. simpl.
  intros H. apply andb_true_iff in H as [Hc H].
  unfold isBang in Hc. rewrite Hc. now apply IH.
Qed.

Lemma bang_no_bracket (s : string) :
  allChars isBang s = true ->
  Js.includes s "[" = false /\ Js.includes s "]" = false.
Proof.
  induction s as [|c s IH]; [now split|]. simpl.
  intros H. apply andb_true_iff in H as [Hc H].
  destruct (IH H) as [H1 H2]. rewrite H1, H2.
  unfold isBang in Hc. apply Ascii.eqb_eq in Hc. subst c. now split.
Qed.

Lemma outerMarkers_bang (t : GraphQLType) :
  allChars isBang (outerMarkers t) = true.
Proof.
  induction t; try reflexivity. simpl. now rewrite allChars_app, IHt.
Qed.

Lemma underList_named (t u : GraphQLType) :
  underList t = Some u -> namedTypeOf u = namedTypeOf t.
Proof. induction t; simpl; try discriminate; [now intros [= ->] | assumption]. Qed.

Lemma removeBang_none (s : string) :
  Js.includes s "!" = false -> Js.removeBang s = s.
Proof.
  induction s as [|c s IH]; [reflexivity|]. intros H.
  cbn [Js.includes Js.startsWith] in H.
  apply orb_false_iff in H as [Hc H]. rewrite andb_true_r in Hc.
  simpl. rewrite Ascii.eqb_sym, Hc. now rewrite IH.
Qed.

(** The mapped printed type: the outermost list, its element type and the
    markers after it. *)
Lemma mapped_under (t : GraphQLType) :
  mapGraphQLTypeToTSType (toString t)
  = match underList t with
    | Some u => "[" ++ mapGraphQLTypeToTSType (toString u) ++ "]"
                  ++ outerMarkers t
    | None => mapGraphQLTypeToTSType (namedTypeOf t) ++ outerMarkers t
    end.
Proof.
  induction t as [n|t IH|t IH].
  - simpl. now rewrite append_nil_r.
  - cbn [underList outerMarkers]. rewrite mapGraphQLTypeToTSType_ListOf.
    now rewrite append_nil_r.
  - cbn [underList outerMarkers namedTypeOf].
    rewrite mapGraphQLTypeToTSType_NonNull, IH.
    destruct (underList t); now rewrite !append_assoc.
Qed.

Lemma mapped_marker (t : GraphQLType) :
  isName (namedTypeOf t) = true ->
  Js.includes (mapGraphQLTypeToTSType (toString t)) "!" = hasNonNull t.
Proof.
  intros Hn. induction t as [n|t IH|t IH].
  - now apply mapped_name_no_marker.
  - rewrite mapGraphQLTypeToTSType_ListOf, !includes_app_char.
    cbn [hasNonNull]. rewrite (IH Hn). simpl. now rewrite orb_false_r.
  - rewrite mapGraphQLTypeToTSType_NonNull, includes_app_char.
    apply orb_true_r.
Qed.

Lemma mapped_bare (t : GraphQLType) :
  isName (namedTypeOf t) = true ->
  Js.removeBang (mapGraphQLTypeToTSType (toString t)) = bareType t.
Proof.
  intros Hn. induction t as [n|t IH|t IH].
  - now apply removeBang_avoids, mapGraphQLTypeToTSType_avoids, isName_avoids.
  - rewrite mapGraphQLTypeToTSType_ListOf, !removeBang_app, (IH Hn).
    reflexivity.
  - rewrite mapGraphQLTypeToTSType_NonNull, removeBang_app, (IH Hn).
    simpl. now rewrite append_nil_r.
Qed.

(** The bracket expression on the mapped type of a field. *)
Lemma replaceAllBrackets_mapped (suffix : string) (t : GraphQLType) :
  isName (namedTypeOf t) = true ->
  Js.replaceAllBrackets suffix (mapGraphQLTypeToTSType (toString t))
  = match underList t with
    | Some u => mapGraphQLTypeToTSType (toString u) ++ suffix
                  ++ outerMarkers t
    | None => mapGraphQLTypeToTSType (namedTypeOf t) ++ outerMarkers t
    end.
Proof.
  intros Hn. rewrite mapped_under.
  destruct (bang_no_bracket _ (outerMarkers_bang t)) as [Ho Hc].
  destruct (underList t) as [u|] eqn:E.
  - apply replaceAllBrackets_list; try assumption.
    apply mapGraphQLTypeToTSType_line.
    now rewrite (underList_named t u E).
  - unfold Js.replaceAllBrackets. apply replaceBrackets_plain.
    rewrite includes_app_char, Ho, orb_false_r.
    apply (avoids_includes_char isWrapper); [reflexivity|].
    now apply mapGraphQLTypeToTSType_avoids, isName_avoids.
Qed.

Lemma removeBang_rendered (suffix : string) (t : GraphQLType) :
  isName (namedTypeOf t) = true ->
  Js.includes suffix "!" = false ->
  Js.removeBang
    (Js.replaceAllBrackets suffix (mapGraphQLTypeToTSType (toString t)))
  = match underList t with
    | Some u => bareType u ++ suffix
    | None => bareType t
    end.
Proof.
  intros Hn Hs. rewrite (replaceAllBrackets_mapped suffix t Hn).
  destruct (underList t) as [u|] eqn:E.
  - rewrite !removeBang_app, (bang_removeBang _ (outerMarkers_bang t)).
    rewrite mapped_bare by now rewrite (underList_named t u E).
    now rewrite (removeBang_none suffix Hs), append_nil_r.
  - rewrite removeBang_app, (bang_removeBang _ (outerMarkers_bang t)).
    rewrite append_nil_r.
    assert (Hb : forall t0, underList t0 = None ->
                 bareType t0 = mapGraphQLTypeToTSType (namedTypeOf t0)).
    { induction t0; simpl; [reflexivity | discriminate | assumption]. }
    rewrite (Hb t E).
    now apply removeBang_avoids, mapGraphQLTypeToTSType_avoids, isName_avoids.
Qed.

End Structural.

(** X11.  For every type reference to a GraphQL name, the property line of
    the object branch is the structural rendering: required exactly when
    the reference has a non-null wrapper somewhere, the outermost list
    turned into one array suffix, the markers dropped, inner lists left
    in brackets. *)
Theorem propertyLine_structural (name : string) (t : GraphQLType) :
  isName (namedTypeOf t) = true ->
  propertyLine name (fieldTsType (mkField name t))
  = "  " ++ name ++ (if hasNonNull t then ": " else "?: ")
      ++ renderedType t ++ ";".
Proof.
  intros Hn. rewrite propertyLine_marker. unfold fieldTsType, renderedType.
  cbn [fieldType]. rewrite (mapped_marker t Hn).
  pose proof (removeBang_rendered "[]" t Hn eq_refl) as Hr.
  destruct (hasNonNull t) eqn:Hnn.
  - now rewrite Hr.
  - rewrite <- Hr. rewrite removeBang_none; [reflexivity|].
    rewrite <- (mapped_marker t Hn) in Hnn.
    unfold Js.replaceAllBrackets. now rewrite replaceBrackets_marker.
Qed.

Lemma propertyLine_structural_witness :
  propertyLine "at"
    (fieldTsType
       (mkField "at" (NonNull (ListOf (NonNull (Named "NaiveDate"))))))
  = "  at: UTCDate[];".
Proof.
  apply (propertyLine_structural "at"
           (NonNull (ListOf (NonNull (Named "NaiveDate"))))).
  reflexivity.
Defined.

Lemma bareType_flat (t : GraphQLType) :
  listDepth t = 0 -> bareType t = mapGraphQLTypeToTSType (namedTypeOf t).
Proof. induction t; simpl; [reflexivity | discriminate | assumption]. Qed.

Lemma baseNameOf_flat (t : GraphQLType) :
  listDepth t <= 1 ->
  baseNameOf t = mapGraphQLTypeToTSType (namedTypeOf t).
Proof.
  unfold baseNameOf. induction t as [n|t IH|t IH]; intros Hd.
  - reflexivity.
  - cbn [underList listDepth namedTypeOf] in *. apply bareType_flat. lia.
  - cbn [underList listDepth namedTypeOf] in *. specialize (IH Hd).
    destruct (underList t); exact IH.
Qed.

Lemma cleanedTypeOf_baseName (field : GraphQLField) :
  wellNamed field = true ->
  cleanedTypeOf (fieldTsType field) = baseNameOf (fieldType field).
Proof.
  intros Hn. unfold wellNamed in Hn.
  unfold cleanedTypeOf, fieldTsType, baseNameOf.
  rewrite (removeBang_rendered EmptyString _ Hn eq_refl).
  destruct (underList (fieldType field)); [apply append_nil_r | reflexivity].
Qed.

Lemma cleanedTypeOf_flat (field : GraphQLField) :
  wellNamed field = true ->
  listDepth (fieldType field) <= 1 ->
  cleanedTypeOf (fieldTsType field)
  = mapGraphQLTypeToTSType (namedTypeOf (fieldType field)).
Proof.
  intros Hn Hd. rewrite (cleanedTypeOf_baseName field Hn).
  now apply baseNameOf_flat.
Qed.

(** X12.  For every type reference to a GraphQL name, the base name used
    for the import is the printed type without its markers and without
    its outermost list; with at most one list wrapper it is the mapped
    name. *)
Theorem cleanedTypeOf_structural (field : GraphQLField) :
  wellNamed field = true ->
  cleanedTypeOf (fieldTsType field) = baseNameOf (fieldType field)
  /\ (listDepth (fieldType field) <= 1 ->
      cleanedTypeOf (fieldTsType field)
      = mapGraphQLTypeToTSType (namedTypeOf (fieldType field))).
Proof.
  intros Hn. split.
  - now apply cleanedTypeOf_baseName.
  - now apply cleanedTypeOf_flat.
Qed.

Lemma cleanedTypeOf_structural_witness :
  cleanedTypeOf
    (fieldTsType (mkField "guests" (NonNull (ListOf (NonNull (Named "User"))))))
  = "User".
Proof.
  destruct (cleanedTypeOf_structural
              (mkField "guests" (NonNull (ListOf (NonNull (Named "User"))))))
    as [_ H].
  - reflexivity.
  - apply H. simpl. lia.
Defined.

(** *** Fields of the built-in and of the temporal scalars *)

(** X13.  A field of one of the five built-in scalars, with at most one
    list wrapper, adds no import line. *)
Theorem builtin_scalar_field_no_import
    (registry : list string) (type : GraphQLNamedType) (imports : string)
    (field : GraphQLField) :
  Js.arrayIncludes ["String"; "Int"; "Float"; "Boolean"; "ID"]
    (namedTypeOf (fieldType field)) = true ->
  listDepth (fieldType field) <= 1 ->
  updateImports registry type imports (fieldTsType field) = imports.
Proof.
  intros Hs Hd. apply updateImports_primitive.
  cbn [Js.arrayIncludes] in Hs.
  rewrite orb_false_r, !orb_true_iff, !String.eqb_eq in Hs.
  assert (Hn : wellNamed field = true)
    by (unfold wellNamed;
        destruct Hs as [<-|[<-|[<-|[<-|<-]]]]; reflexivity).
  rewrite (cleanedTypeOf_flat field Hn Hd).
  destruct Hs as [<-|[<-|[<-|[<-|<-]]]]; reflexivity.
Qed.

Lemma builtin_scalar_field_no_import_witness :
  updateImports [] treeNode (typeImport "User")
    (fieldTsType (mkField "ids" (NonNull (ListOf (NonNull (Named "ID"))))))
  = typeImport "User".
Proof.
  apply (builtin_scalar_field_no_import [] treeNode (typeImport "User")
           (mkField "ids" (NonNull (ListOf (NonNull (Named "ID")))))).
  - reflexivity.
  - simpl. lia.
Defined.

(** X14.  A field of one of the three temporal scalars, under any
    wrappers, adds the import of [UTCDate] when the import text does not
    hold [UTCDate] yet, and nothing otherwise. *)
Theorem temporal_field_imports_date
    (registry : list string) (type : GraphQLNamedType) (imports : string)
    (field : GraphQLField) :
  Js.arrayIncludes ["NaiveTime"; "NaiveDate"; "NaiveDateTime"]
    (namedTypeOf (fieldType field)) = true ->
  updateImports registry type imports (fieldTsType field)
  = if Js.includes imports "UTCDate" then imports else imports ++ dateImport.
Proof.
  intros Hs.
  assert (Hd : Js.includes (fieldTsType field) "UTCDate" = true).
  { unfold fieldTsType.
    destruct (toString_shape (fieldType field)) as [o [k [E [Ho Hk]]]].
    rewrite E, mapGraphQLTypeToTSType_shape by assumption.
    apply includes_app_r, includes_app_l.
    cbn [Js.arrayIncludes] in Hs.
    rewrite orb_false_r, !orb_true_iff, !String.eqb_eq in Hs.
    destruct Hs as [<-|[<-|<-]]; reflexivity. }
  unfold updateImports. rewrite Hd.
  now destruct (Js.includes imports "UTCDate").
Qed.

Lemma temporal_field_imports_date_witness :
  updateImports [] treeNode EmptyString
    (fieldTsType (mkField "at" (ListOf (ListOf (NonNull (Named "NaiveTime"))))))
  = dateImport.
Proof.
  apply (temporal_field_imports_date [] treeNode EmptyString
           (mkField "at" (ListOf (ListOf (NonNull (Named "NaiveTime")))))).
  reflexivity.
Defined.

(** *** The scalar mapping and the wrappers *)

(** X15.  Mapping the scalar names commutes with the wrappers: the
    brackets of a list and the marker of a non-null type are kept as they
    are, for every type reference. *)
Theorem mapping_commutes_with_wrappers (t : GraphQLType) :
  mapGraphQLTypeToTSType (toString (ListOf t))
  = "[" ++ mapGraphQLTypeToTSType (toString t) ++ "]"
  /\ mapGraphQLTypeToTSType (toString (NonNull t))
     = mapGraphQLTypeToTSType (toString t) ++ "!".
Proof.
  split;
    [apply mapGraphQLTypeToTSType_ListOf | apply mapGraphQLTypeToTSType_NonNull].
Qed.

(** X16.  A text in which none of the eight scalar names occurs is left
    as it is by the mapping. *)
Theorem text_without_scalar_name_unchanged (graphqlType : string) :
  forallb (fun scalar => negb (Js.includes graphqlType scalar)) scalarTypeMap
  = true ->
  mapGraphQLTypeToTSType graphqlType = graphqlType.
Proof. apply mapGraphQLTypeToTSType_plain. Qed.

Lemma text_without_scalar_name_unchanged_witness :
  mapGraphQLTypeToTSType "[ColorType!]!" = "[ColorType!]!".
Proof. apply text_without_scalar_name_unchanged. reflexivity. Defined.

(** *** [lowercaseFirstLetter] *)

Lemma toLowerCaseChar_idem (c : ascii) :
  Js.toLowerCaseChar (Js.toLowerCaseChar c) = Js.toLowerCaseChar c.
Proof. destruct c as [[] [] [] [] [] [] [] []]; reflexivity. Qed.

(** X17.  [lowercaseFirstLetter] keeps the length and everything after
    the first character, and applying it twice is applying it once; the
    empty text is left empty. *)
Theorem lowercaseFirstLetter_shape (str : string) :
  String.length (lowercaseFirstLetter str) = String.length str
  /\ Js.slice (lowercaseFirstLetter str) 1 = Js.slice str 1
  /\ lowercaseFirstLetter (lowercaseFirstLetter str) = lowercaseFirstLetter str.
Proof.
  destruct str as [|c s]; [repeat split|].
  unfold lowercaseFirstLetter. cbn. rewrite toLowerCaseChar_idem.
  repeat split.
Qed.

(** *** The start of [main] *)

(** X18.  [main] gets past its checks exactly when the configuration was
    read, [schema] is present and not empty and [outDir] is not empty;
    the schema path is then the configured one, never the URL of line
    155, and it is fetched by introspection exactly when it starts with
    [http://] or [https://]. *)
Theorem startup_proceeds (parsed : option Config) (source : SchemaSource)
    (dir : string) (ign : list string) :
  startup parsed = Proceed source dir ign
  <-> exists config path,
        parsed = Some config /\ schema config = Some path
        /\ path <> EmptyString /\ outDir config <> EmptyString
        /\ dir = outDir config /\ ign = ignore config
        /\ source = (if Js.startsWith path "http://"
                        || Js.startsWith path "https://"
                     then Introspection path else SdlFile path).
Proof.
  split.
  - destruct parsed as [config|]; [|discriminate].
    unfold startup. destruct config as [[path|] o i]; cbn [schema outDir ignore];
      [|discriminate].
    cbn [truthySchema schemaOrDefault].
    destruct path as [|c path]; [discriminate|]. cbn [Js.truthy negb orb].
    destruct o as [|d o]; [discriminate|]. cbn [Js.truthy negb].
    intros H. exists (mkConfig (Some (String c path)) (String d o) i),
                (String c path).
    cbn [schema outDir ignore]. repeat split; try discriminate.
    + destruct (Js.startsWith (String c path) "http://"
                || Js.startsWith (String c path) "https://");
        now injection H.
    + destruct (Js.startsWith (String c path) "http://"
                || Js.startsWith (String c path) "https://");
        now injection H.
    + destruct (Js.startsWith (String c path) "http://"
                || Js.startsWith (String c path) "https://");
        now injection H.
  - intros [config [path [-> [Hs [Hp [Ho [-> [-> ->]]]]]]]].
    unfold startup. rewrite Hs. cbn [truthySchema schemaOrDefault].
    destruct path as [|c path]; [contradiction|]. cbn [Js.truthy negb orb].
    destruct (outDir config) as [|d o]; [contradiction|]. cbn [Js.truthy negb].
    now destruct (Js.startsWith (String c path) "http://"
                  || Js.startsWith (String c path) "https://").
Qed.

Lemma startup_proceeds_witness :
  startup (Some sampleConfig)
  = Proceed (SdlFile "./schema.graphql") "./types" ["QueryRoot"].
Proof.
  apply (startup_proceeds (Some sampleConfig)).
  exists sampleConfig, "./schema.graphql".
  repeat split; discriminate.
Defined.

(** *** References that resolve *)

(** X19.  A field with at most one list wrapper whose named type holds no
    scalar name and is a kept type of the second loop has that type's
    name as base name, and the file that a type-only import of it points
    to is written by the run. *)
Theorem flat_reference_resolves
    (ignoreList : list string) (typeMap : TypeMap) (field : GraphQLField)
    (key : string) (target : GraphQLNamedType) :
  wellNamed field = true ->
  listDepth (fieldType field) <= 1 ->
  forallb (fun scalar =>
             negb (Js.includes (namedTypeOf (fieldType field)) scalar))
          scalarTypeMap = true ->
  In (key, target) typeMap ->
  keptRest ignoreList (key, target) = true ->
  nameOf target = namedTypeOf (fieldType field) ->
  cleanedTypeOf (fieldTsType field) = nameOf target
  /\ exists text,
       In (mkFile false
             (lowercaseFirstLetter (cleanedTypeOf (fieldTsType field)) ++ ".ts")
             text)
          (written (main ignoreList typeMap)).
Proof.
  intros Hn Hd Hp Hin Hk Hname.
  assert (Hc : cleanedTypeOf (fieldTsType field) = nameOf target).
  { rewrite (cleanedTypeOf_flat field Hn Hd), Hname.
    now apply mapGraphQLTypeToTSType_plain. }
  split; [exact Hc|]. rewrite Hc.
  exists (generateTypeScriptForType (enumTypes (main ignoreList typeMap)) target).
  rewrite main_written_filter. apply in_or_app. right.
  change (mkFile false (lowercaseFirstLetter (nameOf target) ++ ".ts")
            (generateTypeScriptForType (enumTypes (main ignoreList typeMap))
               target))
    with (restFile (enumTypes (main ignoreList typeMap)) (key, target)).
  apply in_map. apply filter_In. now split.
Qed.

Lemma flat_reference_resolves_witness :
  exists text, In (mkFile false "item.ts" text) (written (main [] mixedSchema)).
Proof.
  assert (Hin : In ("Item",
                    GraphQLObjectType "Item"
                      [mkField "id" (NonNull (Named "ID"));
                       mkField "color" (Named "Color");
                       mkField "at"
                         (NonNull (ListOf (NonNull (Named "NaiveDate"))))])
                   mixedSchema)
    by (do 4 right; left; reflexivity).
  destruct (flat_reference_resolves [] mixedSchema
              (mkField "items" (ListOf (Named "Item"))) "Item" _
              eq_refl (le_n 1) eq_refl Hin eq_refl eq_refl)
    as [_ H].
  exact H.
Defined.
